(** * status-reportr: weekly windows and section classification

    A shallow embedding of the report core of status-reportr:
    [structs.go] (items, matchers, time queries), [schedule.go]
    (the weekly window loop) and the section extraction of [config.go],
    together with the properties of the windowing and of the
    classification that the specification states. *)

From Stdlib Require Import ZArith Lia Ascii String List Permutation Sorted.
From stdpp Require Import base option list strings gmap pretty.

Local Open Scope string_scope.
Local Open Scope Z_scope.

(** ** time.Time

    A [time.Time] is an instant together with a Location.  The instant is
    kept in nanoseconds since January 1, year 1, 00:00:00 UTC, which is the
    zero value [time.Time{}]; the Location is kept as its offset east of UTC
    in seconds: UTC and the Locations with a fixed offset.  A Location
    whose offset changes with the date (daylight saving time) is outside
    this model, and what is proved of the wall clock of a [Time] is proved
    for fixed offsets only.  [Equal], [Before] and [After] compare
    instants only, as in Go. *)

Record Time : Type := mkTime { instant : Z; zoneOffset : Z }.

Definition zeroTime : Time := mkTime 0 0.

Definition Equal (t u : Time) : bool := instant t =? instant u.
Definition Before (t u : Time) : bool := instant t <? instant u.
Definition After (t u : Time) : bool := instant u <? instant t.

Definition nsPerSecond : Z := 1000000000.
Definition nsPerDay : Z := 86400 * nsPerSecond.

(** The civil day, counted from January 1 of year 1, that the wall clock of
    [t] shows in its own Location. *)
Definition localDay (t : Time) : Z :=
  (instant t + zoneOffset t * nsPerSecond) `div` nsPerDay.

(** [t.Weekday()], Sunday = 0.  January 1 of year 1 is a Monday. *)
Definition Weekday (t : Time) : Z := (localDay t + 1) `mod` 7.

(** [t.AddDate(0, 0, days)]: the same wall clock, [days] civil days later. *)
Definition AddDays (t : Time) (days : Z) : Time :=
  mkTime (instant t + days * nsPerDay) (zoneOffset t).

(** [time.Date(y, m, d, 0, 0, 0, 0, time.UTC)] where [(y, m, d)] is the
    civil date number [day]. *)
Definition DateUTC (day : Z) : Time := mkTime (day * nsPerDay) 0.

(** ** Strings

    Go strings are byte strings, read as UTF-8.  [TrimSpace] removes the
    white space of Unicode ([unicode.IsSpace]) at both ends, as Go does.
    [ToLower] folds the letters A to Z only: it is Go's [strings.ToLower]
    on ASCII strings, and on any string as far as the comparison of its
    result with "done" goes, since no character outside ASCII has d, o, n
    or e for its lower case.  The comparison of labels in the
    regular-expression revision ([Legacy.HasLabel]) is Go's for labels and
    rules whose cased letters are all in ASCII. *)

Definition isSpace (c : ascii) : bool :=
  let n := nat_of_ascii c in
  ((9 <=? n)%nat && (n <=? 13)%nat) || (n =? 32)%nat.

(** The white space encoded on two bytes: U+0085 and U+00A0. *)
Definition isSpace2 (a b : ascii) : bool :=
  (nat_of_ascii a =? 194)%nat
  && ((nat_of_ascii b =? 133)%nat || (nat_of_ascii b =? 160)%nat).

(** The white space encoded on three bytes: U+1680, U+2000 to U+200A,
    U+2028, U+2029, U+202F, U+205F and U+3000. *)
Definition isSpace3 (a b c : ascii) : bool :=
  let x := nat_of_ascii a in
  let y := nat_of_ascii b in
  let z := nat_of_ascii c in
  ((x =? 225)%nat && (y =? 154)%nat && (z =? 128)%nat)
  || ((x =? 226)%nat && (y =? 128)%nat
      && (((128 <=? z)%nat && (z <=? 138)%nat)
          || (z =? 168)%nat || (z =? 169)%nat || (z =? 175)%nat))
  || ((x =? 226)%nat && (y =? 129)%nat && (z =? 159)%nat)
  || ((x =? 227)%nat && (y =? 128)%nat && (z =? 128)%nat).

(** Removes the white space at the head of [s].  With [back] set, [s] is a
    string read from its end, and so are the bytes of a character. *)
Fixpoint trimRunes (back : bool) (s : string) : string :=
  match s with
  | EmptyString => EmptyString
  | String a s1 =>
      if isSpace a then trimRunes back s1
      else
        match s1 with
        | EmptyString => s
        | String b s2 =>
            if (if back then isSpace2 b a else isSpace2 a b)
            then trimRunes back s2
            else
              match s2 with
              | EmptyString => s
              | String c s3 =>
                  if (if back then isSpace3 c b a else isSpace3 a b c)
                  then trimRunes back s3
                  else s
              end
        end
  end.

Definition trimLeft (s : string) : string := trimRunes false s.

Definition trimRight (s : string) : string :=
  String.rev (trimRunes true (String.rev s)).

Definition TrimSpace (s : string) : string := trimRight (trimLeft s).

Definition lowerAscii (c : ascii) : ascii :=
  let n := nat_of_ascii c in
  if ((65 <=? n)%nat && (n <=? 90)%nat)%bool then ascii_of_nat (n + 32) else c.

Fixpoint ToLower (s : string) : string :=
  match s with
  | String c s' => String (lowerAscii c) (ToLower s')
  | EmptyString => EmptyString
  end.

(** [len(s) > 0] *)
Definition nonEmpty (s : string) : bool :=
  match s with EmptyString => false | String _ _ => true end.

(** ** Items *)

Definition FIELD_EMPTY : Z := 0.
Definition FIELD_DATE : Z := 1.
Definition FIELD_TEXT : Z := 2.
Definition FIELD_NUMBER : Z := 3.
Definition FIELD_ITERATION : Z := 4.

(** [Field].  The [float64] payload is carried as its IEEE-754 bit pattern
    and the [time.Duration] as its nanosecond count; neither is inspected
    by the functions below. *)
Record Field : Type := mkField {
  fType : Z;
  fName : string;
  fDate : Time;
  fNumber : Z;
  fText : string;
  fDuration : Z;
  fIterationId : string;
  fStartDate : Time;
  fTitle : string
}.

Record RepoInfo : Type := mkRepo {
  rName : string;
  rSlug : string;
  rURL : string;
  rBranch : string
}.

Record Item : Type := mkItem {
  ID : string;
  Archived : bool;
  Fields : gmap string Field;
  Labels : list string;
  DoneAt : Time;
  ItemType : string;
  Number : Z;
  URL : string;
  Repo : RepoInfo
}.

Abbreviation Items := (list Item).

(** [IsDone]: the item carries a text field [Status] that reads "done". *)
Definition IsDone (it : Item) : bool :=
  match Fields it !! "Status" with
  | Some status =>
      (fType status =? FIELD_TEXT) && String.eqb "done" (ToLower (fText status))
  | None => false
  end.

(** [Done]: the time the item was completed at, or the zero time. *)
Definition Done (it : Item) : Time :=
  match Fields it !! "Status" with
  | Some status =>
      if (fType status =? FIELD_TEXT) && String.eqb "done" (ToLower (fText status))
      then DoneAt it
      else zeroTime
  | None => zeroTime
  end.

(** [Title]: the title of the item, or the empty string. *)
Definition Title (it : Item) : string :=
  match Fields it !! "Title" with
  | Some status => if fType status =? FIELD_TEXT then fText status else ""
  | None => ""
  end.

(** ** sort.SliceStable

    A stable insertion sort: [x] is put in front of the first element that
    is not strictly before it, so that elements comparing equal keep their
    input order. *)

Section StableSort.
Context {A : Type} (less : A -> A -> bool).

Fixpoint insertStable (x : A) (l : list A) : list A :=
  match l with
  | [] => [x]
  | y :: l' => if less y x then y :: insertStable x l' else x :: y :: l'
  end.

Definition SliceStable (l : list A) : list A :=
  List.fold_right insertStable [] l.
End StableSort.

(** ** Time queries over item lists ([structs.go]) *)

Definition lessDone (a b : Item) : bool := Before (Done a) (Done b).
Definition lessDoneAt (a b : Item) : bool := Before (DoneAt a) (DoneAt b).

Definition GetDone (list : Items) : Items :=
  SliceStable lessDone (List.filter IsDone list).

Definition GetOlder (list : Items) (when : Time) : Items :=
  List.filter
    (fun item =>
       let at_ := Done item in
       negb (Equal at_ zeroTime) && (Before at_ when || Equal at_ when))
    list.

Definition GetInRange (list : Items) (start end_ : Time) : Items :=
  let '(start, end_) := if After start end_ then (end_, start) else (start, end_) in
  List.filter
    (fun item =>
       let at_ := Done item in
       (Before at_ end_ && After at_ start) || Equal at_ start)
    list.

(** ** The weekly windows ([schedule.go]) *)

Record WeeklyItems : Type := mkWeek {
  wItems : Items;
  wStart : Time;
  wEnd : Time
}.

Abbreviation Weeks := (list WeeklyItems).

(** [now.AddDate(0, 0, -day)] keeps the wall clock of [now] and goes back
    [day] days in the Location of [now]; with a fixed offset that is [day]
    times twenty-four hours.  In a Location with daylight-saving
    transitions, which [Time] does not model, the wall clock reached may
    not exist and Go then moves it, possibly onto the Saturday. *)
Definition getClosestSunday (now : Time) : Time :=
  let day := Weekday now in
  let tmp := AddDays now (-1 * day) in
  DateUTC (localDay tmp).

Definition getPreviousSunday (when : Time) : Time := AddDays when (-7).

(** The [for len(list) > 0] loop of [splitByWeeks].  [fuel] bounds the
    number of iterations; [None] means the loop is still running when the
    fuel is spent. *)
Fixpoint splitLoop (fuel : nat) (weeks : Weeks)
    (list : Items) (start end_ : Time) : option Weeks :=
  match list with
  | [] => Some weeks
  | _ :: _ =>
      match fuel with
      | O => None
      | S fuel' =>
          let issues := GetInRange list start end_ in
          let list' := GetOlder list start in
          let weeks' := (weeks ++ [mkWeek issues start end_])%list in
          splitLoop fuel' weeks' list' (getPreviousSunday start) start
      end
  end.

Definition splitByWeeks (fuel : nat) (list : Items) (now : Time)
    : option Weeks :=
  let end_ := getClosestSunday now in
  let start := getPreviousSunday end_ in
  let list := SliceStable lessDoneAt list in
  let list := GetOlder list end_ in
  splitLoop fuel [] list start end_.

(** ** Glob matching

    The matchers call [glob.Glob] of the go-glob dependency.  They are
    written over any matcher; [goGlob] is the matcher of go-glob v1.0.0,
    in which ["*"] stands for any run of characters and every other
    character stands for itself. *)

Class GlobMatcher : Type := Glob : string -> string -> bool.

(** [strings.Split(s, "*")] *)
Fixpoint splitStar (s : string) : list string :=
  match s with
  | EmptyString => [""]
  | String c s' =>
      if Ascii.eqb c "*"%char then "" :: splitStar s'
      else match splitStar s' with
           | p :: ps => String c p :: ps
           | [] => [String c ""]
           end
  end.

(** [s[n:]] *)
Fixpoint dropStr (n : nat) (s : string) : string :=
  match n, s with
  | O, _ => s
  | S n', String _ s' => dropStr n' s'
  | S _, EmptyString => EmptyString
  end.

(** [strings.HasSuffix(s, suffix)] *)
Definition HasSuffixStr (s suffix : string) : bool :=
  let ls := String.length s in
  let lx := String.length suffix in
  (lx <=? ls)%nat && String.eqb (dropStr (ls - lx) s) suffix.

(** The loop of [glob.Glob] over the parts before the last one, followed by
    the test of the last part.  [first] tells the iteration [i = 0]. *)
Fixpoint globParts (leadingGlob trailingGlob first : bool)
    (parts : list string) (subj : string) : bool :=
  match parts with
  | [] => false
  | [lastPart] => trailingGlob || HasSuffixStr subj lastPart
  | part :: rest =>
      match String.index 0 part subj with
      | None => false
      | Some idx =>
          if first && negb leadingGlob && negb (idx =? 0)%nat then false
          else globParts leadingGlob trailingGlob false rest
                 (dropStr (idx + String.length part) subj)
      end
  end.

Definition goGlob (pattern subj : string) : bool :=
  if String.eqb pattern "" then String.eqb subj pattern
  else if String.eqb pattern "*" then true
  else
    let parts := splitStar pattern in
    if (length parts =? 1)%nat then String.eqb subj pattern
    else globParts (String.prefix "*" pattern) (HasSuffixStr pattern "*")
           true parts subj.

#[export] Instance goGlobMatcher : GlobMatcher := goGlob.

(** ** Matchers and extraction ([structs.go]) *)

Section Matchers.
Context {G : GlobMatcher}.

Definition HasLabel (it : Item) (l : string) : bool :=
  let l := TrimSpace l in
  existsb (fun label => Glob l (TrimSpace label)) (Labels it).

Definition HasPrefix (it : Item) (prefix : string) : bool :=
  Glob (TrimSpace prefix ++ "*")%string (TrimSpace (Title it)).

Definition IsBranch (it : Item) (org repo branch : string) : bool :=
  let slug := (TrimSpace org ++ "/" ++ TrimSpace repo)%string in
  let branch := TrimSpace branch in
  nonEmpty (rSlug (Repo it)) &&
  nonEmpty (rBranch (Repo it)) &&
  Glob slug (TrimSpace (rSlug (Repo it))) &&
  Glob branch (TrimSpace (rBranch (Repo it))).

(** Each extraction walks the list once and appends every item to
    [matching] or to [remaining]. *)
Definition ExtractByLabels (items : Items) (labels : list string)
    : Items * Items :=
  List.partition (fun item => existsb (HasLabel item) labels) items.

Definition ExtractByPrefixes (items : Items) (prefixes : list string)
    : Items * Items :=
  List.partition (fun item => existsb (HasPrefix item) prefixes) items.

Definition ExtractByBranch (items : Items) (org repo branch : string)
    : Items * Items :=
  List.partition (fun item => IsBranch item org repo branch) items.
End Matchers.

(** ** Sections ([config.go]) *)

Record Branch : Type := mkBranch {
  bOrg : string;
  bRepo : string;
  bBranch : string
}.

Record Match : Type := mkMatch {
  mLabels : list string;
  mPrefixes : list string;
  mBranches : list Branch
}.

Record ReportSection : Type := mkSection {
  sName : string;
  sRenderOrder : Z;
  sOmitIfEmpty : bool;
  sMatch : Match
}.

Definition newline : string := String (ascii_of_nat 10) EmptyString.

(** One line of [Render]:
    ["- %s **[[#%d](%s)]** ([%s](%s))\n"]. *)
Definition renderItem (item : Item) : string :=
  ("- " ++ Title item ++ " **[[#" ++ pretty (Number item) ++ "](" ++ URL item
   ++ ")]** ([" ++ rSlug (Repo item) ++ "](" ++ rURL (Repo item) ++ "))"
   ++ newline)%string.

(** [Render] appends a markdown section to the writer [w]. *)
Definition Render (s : ReportSection) (items : Items) (w : string) : string :=
  if sOmitIfEmpty s && (length items =? 0)%nat then w
  else
    List.fold_left (fun w item => (w ++ renderItem item)%string) items
      (w ++ newline ++ "## " ++ sName s ++ " ("
         ++ pretty (Z.of_nat (length items)) ++ ")" ++ newline ++ newline)%string.

Section SectionExtract.
Context {G : GlobMatcher}.

(** One turn of the [for _, b := range s.Match.Branches] loop. *)
Definition extractBranchStep (acc : Items * Items) (b : Branch)
    : Items * Items :=
  let '(mine, left_) := acc in
  let '(tmp, left_) := ExtractByBranch left_ (bOrg b) (bRepo b) (bBranch b) in
  ((mine ++ tmp)%list, left_).

(** [Extract] returns the items of the section and the items left over. *)
Definition Extract (s : ReportSection) (items : Items) : Items * Items :=
  let left_ := items in
  let '(tmp, left_) := ExtractByLabels left_ (mLabels (sMatch s)) in
  let mine := tmp in
  let '(tmp, left_) := ExtractByPrefixes left_ (mPrefixes (sMatch s)) in
  let mine := (mine ++ tmp)%list in
  List.fold_left extractBranchStep (mBranches (sMatch s)) (mine, left_).

(** The tests of the label family and of the prefix family of a
    section, as [ExtractByLabels] and [ExtractByPrefixes] make them. *)
Definition byLabel (s : ReportSection) (item : Item) : bool :=
  existsb (HasLabel item) (mLabels (sMatch s)).

Definition byPrefix (s : ReportSection) (item : Item) : bool :=
  existsb (HasPrefix item) (mPrefixes (sMatch s)).

Definition byBranch (s : ReportSection) (item : Item) : bool :=
  existsb (fun b => IsBranch item (bOrg b) (bRepo b) (bBranch b))
    (mBranches (sMatch s)).

(** [ExtractAndRender] returns the unconsumed items and the writer. *)
Definition ExtractAndRender (s : ReportSection) (items : Items) (w : string)
    : Items * string :=
  let '(mine, left_) := Extract s items in
  (left_, Render s mine w).

(** The sections are applied in their configured order, each one to
    what the one before it left over: the buckets of the sections, in
    order, and the unclassified rest. *)
Definition classifyStep (acc : list Items * Items) (s : ReportSection)
    : list Items * Items :=
  let '(buckets, left_) := acc in
  let '(mine, left_) := Extract s left_ in
  ((buckets ++ [mine])%list, left_).

Definition classify (sections : list ReportSection) (items : Items)
    : list Items * Items :=
  List.fold_left classifyStep sections ([], items).
End SectionExtract.

Section RenderSections.
Context {G : GlobMatcher}.

(** One turn of the [for _, section := range cfg.Sections] loop of
    [render]: the rendered text is stored under the render order of the
    section. *)
Definition renderStep (acc : gmap Z string * Items) (section : ReportSection)
    : gmap Z string * Items :=
  let '(sections, left_) := acc in
  let '(left_, buf) := ExtractAndRender section left_ "" in
  (<[sRenderOrder section := buf]> sections, left_).
End RenderSections.

(** Go's [int], on 64 bits, with its wrap-around. *)
Definition wrapInt (x : Z) : Z := (x + 2 ^ 63) `mod` 2 ^ 64 - 2 ^ 63.

(** [rv[label]++] *)
Definition countLabel (rv : gmap string Z) (label : string) : gmap string Z :=
  <[label := wrapInt (default 0 (rv !! label) + 1)]> rv.

(** The label section of [render]: under the title, one line per label,
    ["- %s (%d)\n"], the labels sorted by [sort.Strings]. *)
Definition sortedKeys (labels : gmap string Z) : list string :=
  SliceStable String.ltb (List.map fst (map_to_list labels)).

Definition renderLabels (labels : gmap string Z) : string :=
  List.fold_left
    (fun buf key =>
       (buf ++ "- " ++ key ++ " (" ++ pretty (default 0 (labels !! key)) ++ ")"
        ++ newline)%string)
    (sortedKeys labels)
    (newline ++ "## By Label" ++ newline ++ newline)%string.

(** The label section configuration. *)
Record LabelSectionCfg : Type := mkLabelSection {
  lsEnabled : bool;
  lsRenderOrder : Z
}.

(** ** The regular-expression revision

    The revision of [config.go] in which a branch rule is a regular
    expression compiled inside [ExtractAndRender], with the [structs.go]
    it was written against: labels compared without case, titles by plain
    prefix, branches through [regexp]. *)

Module Legacy.

(** What is used of Go's [regexp] package. *)
Class RegexpLib : Type := {
  Regexp : Type;
  Compile : string -> Regexp + string;
  MatchString : Regexp -> string -> bool
}.

Record Field : Type := mkField {
  fType : Z;
  fName : string;
  fUpdatedAt : Time;
  fDate : Time;
  fNumber : Z;
  fText : string;
  fDuration : Z;
  fIterationId : string;
  fStartDate : Time;
  fTitle : string
}.

Record Item : Type := mkItem {
  ID : string;
  Archived : bool;
  Fields : gmap string Field;
  Labels : list string;
  UpdatedAt : Time;
  ItemType : string;
  Number : Z;
  URL : string;
  Repo : RepoInfo
}.

Abbreviation Items := (list Item).

Record WeeklyItems : Type := mkWeek {
  wItems : Items;
  wStart : Time;
  wEnd : Time
}.

Definition Title (it : Item) : string :=
  match Fields it !! "Title" with
  | Some status => if fType status =? FIELD_TEXT then fText status else ""
  | None => ""
  end.

(** Case is ignored, and ["*"] matches everything. *)
Definition HasLabel (it : Item) (l : string) : bool :=
  let l := TrimSpace l in
  let l := ToLower l in
  if String.eqb l "*" then true
  else existsb (fun label => String.eqb (ToLower (TrimSpace label)) l) (Labels it).

Definition HasPrefix (it : Item) (prefix : string) : bool :=
  let prefix := TrimSpace prefix in
  let title := Title it in
  let title := TrimSpace title in
  String.prefix prefix title.

Definition ExtractByLabels (items : Items) (labels : list string)
    : Items * Items :=
  List.partition (fun item => existsb (HasLabel item) labels) items.

Definition ExtractByPrefixes (items : Items) (prefixes : list string)
    : Items * Items :=
  List.partition (fun item => existsb (HasPrefix item) prefixes) items.

Record Branch : Type := mkBranch {
  bOrg : string;
  bRepo : string;
  bBranch : string
}.

Record Match : Type := mkMatch {
  mLabel : list string;
  mPrefix : list string;
  mBranch : list Branch
}.

Record ReportSection : Type := mkSection {
  sName : string;
  sRenderOrder : Z;
  sOmitIfEmpty : bool;
  sMatch : Match
}.

Record UnclassifiedCfg : Type := mkUnclassified {
  uName : string;
  uRenderOrder : Z;
  uOmitIfEmpty : bool
}.

Record Config : Type := mkConfig {
  LabelSection : LabelSectionCfg;
  Unclassified : UnclassifiedCfg;
  Sections : list ReportSection
}.

Definition GetUniqLabels (items : Items) : gmap string Z :=
  List.fold_left (fun rv item => List.fold_left countLabel (Labels item) rv)
    items ∅.

(** What a panic of [ExtractAndRender] tells, with the items the section
    had taken ([pMine]) and left ([pLeft]) when it was raised. *)
Record PanicInfo : Type := mkPanic {
  pSection : string;
  pBranch : Branch;
  pErr : string;
  pMine : Items;
  pLeft : Items
}.

Inductive outcome (A : Type) : Type :=
| Returned (a : A)
| Panicked (p : PanicInfo).
Arguments Returned {A} a.
Arguments Panicked {A} p.

Definition renderItem (item : Item) : string :=
  ("- " ++ Title item ++ " **[[#" ++ pretty (Number item) ++ "](" ++ URL item
   ++ ")]** ([" ++ rSlug (Repo item) ++ "](" ++ rURL (Repo item) ++ "))"
   ++ newline)%string.

Definition Render (s : ReportSection) (items : Items) (w : string) : string :=
  if sOmitIfEmpty s && (length items =? 0)%nat then w
  else
    List.fold_left (fun w item => (w ++ renderItem item)%string) items
      (w ++ newline ++ "## " ++ sName s ++ " ("
         ++ pretty (Z.of_nat (length items)) ++ ")" ++ newline ++ newline)%string.

Section WithRegexp.
Context {R : RegexpLib}.

Definition IsBranch (it : Item) (org repo : string) (branch : Regexp) : bool :=
  let org := TrimSpace org in
  let repo := TrimSpace repo in
  let slug := (org ++ "/" ++ repo)%string in
  if negb (String.eqb (rSlug (Repo it)) slug) then false
  else MatchString branch (rBranch (Repo it)).

Definition ExtractByBranch (items : Items) (org repo : string)
    (branch : Regexp) : Items * Items :=
  List.partition (fun item => IsBranch item org repo branch) items.

(** The [for _, branch := range s.Match.Branch] loop. *)
Fixpoint extractBranches (s : ReportSection) (branches : list Branch)
    (mine left_ : Items) : outcome (Items * Items) :=
  match branches with
  | [] => Returned (mine, left_)
  | branch :: rest =>
      let branchRe := TrimSpace (bBranch branch) in
      match Compile branchRe with
      | inr err => Panicked (mkPanic (sName s) branch err mine left_)
      | inl re =>
          let '(tmp, left_) := ExtractByBranch left_ (bOrg branch) (bRepo branch) re in
          extractBranches s rest (mine ++ tmp)%list left_
      end
  end.

Definition ExtractAndRender (s : ReportSection) (items : Items) (w : string)
    : outcome (Items * string) :=
  let left_ := items in
  let '(tmp, left_) := ExtractByLabels left_ (mLabel (sMatch s)) in
  let mine := tmp in
  let '(tmp, left_) := ExtractByPrefixes left_ (mPrefix (sMatch s)) in
  let mine := (mine ++ tmp)%list in
  match extractBranches s (mBranch (sMatch s)) mine left_ with
  | Panicked p => Panicked p
  | Returned (mine, left_) => Returned (left_, Render s mine w)
  end.

(** The [for _, section := range cfg.Sections] loop of [render]. *)
Fixpoint renderLoop (todo : list ReportSection) (sections : gmap Z string)
    (left_ : Items) : outcome (gmap Z string * Items) :=
  match todo with
  | [] => Returned (sections, left_)
  | section :: rest =>
      match ExtractAndRender section left_ "" with
      | Panicked p => Panicked p
      | Returned (left_, buf) =>
          renderLoop rest (<[sRenderOrder section := buf]> sections) left_
      end
  end.

(** The map [sections] that [render] fills, by render order: the user
    sections, then the unclassified section, then the label section when
    it is enabled. *)
Definition renderSections (cfg : Config) (week : WeeklyItems)
    : outcome (gmap Z string) :=
  match renderLoop (Sections cfg) ∅ (wItems week) with
  | Panicked p => Panicked p
  | Returned (sections, left_) =>
      let buf :=
        Render (mkSection (uName (Unclassified cfg))
                  (uRenderOrder (Unclassified cfg))
                  (uOmitIfEmpty (Unclassified cfg)) (mkMatch [] [] []))
          left_ "" in
      let sections := <[uRenderOrder (Unclassified cfg) := buf]> sections in
      Returned
        (if lsEnabled (LabelSection cfg)
         then <[lsRenderOrder (LabelSection cfg) :=
                  renderLabels (GetUniqLabels (wItems week))]> sections
         else sections)
  end.

(** A report file: the window it is named after and its sections. *)
Record Report : Type := mkReport {
  repStart : Time;
  repEnd : Time;
  repData : gmap Z string
}.

(** How the loop over the windows ends: at the end of the list, on a
    panic of [render], or on the error of a write. *)
Inductive runEnd : Type :=
| Finished
| Panic (p : PanicInfo)
| WriteFailed (err : string).

(** [os.WriteFile]: the file system answers a write with an error or with
    none. *)
Context (WriteFile : Report -> option string).

(** The [for _, week := range weeks] loop of [wrapped]: every window is
    rendered and then written, and the error of a write ends the run.  The
    result is the list of the files written and the way the loop ended. *)
Fixpoint writeReports (cfg : Config) (weeks : list WeeklyItems)
    (written : list Report) : list Report * runEnd :=
  match weeks with
  | [] => (written, Finished)
  | week :: rest =>
      match renderSections cfg week with
      | Panicked p => (written, Panic p)
      | Returned data =>
          let report := mkReport (wStart week) (wEnd week) data in
          match WriteFile report with
          | Some err => (written, WriteFailed err)
          | None => writeReports cfg rest (written ++ [report])%list
          end
      end
  end.

(** Some branch rule of some section does not compile. *)
Definition branchInvalid (b : Branch) : bool :=
  match Compile (TrimSpace (bBranch b)) with inr _ => true | inl _ => false end.

Definition sectionInvalid (s : ReportSection) : bool :=
  existsb branchInvalid (mBranch (sMatch s)).

Definition configInvalid (cfg : Config) : bool :=
  existsb sectionInvalid (Sections cfg).
End WithRegexp.

(** A fragment of Go's regular expressions, for running the code on
    examples: a pattern made of letters and digits only compiles and
    matches the strings that contain it; any other pattern is rejected
    by this fragment, as Go rejects ["("] for its missing parenthesis. *)
Definition isAlnum (c : ascii) : bool :=
  let n := nat_of_ascii c in
  ((48 <=? n)%nat && (n <=? 57)%nat) || ((65 <=? n)%nat && (n <=? 90)%nat)
  || ((97 <=? n)%nat && (n <=? 122)%nat).

Fixpoint allAlnum (s : string) : bool :=
  match s with
  | EmptyString => true
  | String c s' => isAlnum c && allAlnum s'
  end.

Definition literalRegexp : RegexpLib := {|
  Regexp := string;
  Compile := fun s => if allAlnum s then inl s else inr "error parsing regexp";
  MatchString := fun re s =>
    match String.index 0 re s with Some _ => true | None => false end
|}.

End Legacy.

(** ** The windows, one by one

    The window number [k], counted from the newest, of a run whose first
    boundary is [end0], and the items of a pool that fall in it. *)

Definition weekSpan : Z := 7 * nsPerDay.

Definition inWindow (end0 : Time) (k : nat) (it : Item) : bool :=
  (instant end0 - weekSpan * (Z.of_nat k + 1) <=? instant (Done it)) &&
  (instant (Done it) <? instant end0 - weekSpan * Z.of_nat k).

Definition windowAt (end0 : Time) (pool : Items) (k : nat) : WeeklyItems :=
  mkWeek (List.filter (inWindow end0 k) pool)
    (AddDays end0 (-7 * (Z.of_nat k + 1)))
    (AddDays end0 (-7 * Z.of_nat k)).

(** What a pool must satisfy at the head of the loop: every item has a
    completion time, at or before the end of the window to come. *)
Definition poolOk (pool : Items) (end_ : Time) : Prop :=
  forall it, In it pool ->
    instant (Done it) <> 0 /\ instant (Done it) <= instant end_.

(** A number of iterations that the loop of [splitByWeeks] does not exceed:
    one more than the number of whole weeks between the oldest item and the
    first boundary. *)
Definition roundsFor (end0 : Time) (it : Item) : nat :=
  Z.to_nat ((instant end0 - instant (Done it)) `div` weekSpan + 1).

Definition splitFuel (items : Items) (now : Time) : nat :=
  List.fold_right (fun it n => Nat.max (roundsFor (getClosestSunday now) it) n)
    O items.

(** ** Example items

    Items in the shape of the fixtures of the tests: a text field [Title],
    a text field [Status], labels, a completion time and a repository. *)

Definition textField (name text : string) : Field :=
  mkField FIELD_TEXT name zeroTime 0 text 0 "" zeroTime "".

Definition exampleItem (id title status : string) (labels : list string)
    (doneAt : Time) (branch : string) : Item :=
  mkItem id false
    (<["Title" := textField "Title" title]>
       (<["Status" := textField "Status" status]> ∅))
    labels doneAt "ISSUE" 88 "https://github.com/org/repo/issues/88"
    (mkRepo "repo" "org/repo" "https://github.com/org/repo" branch).

(** Civil day 738373 is Sunday 2022-08-07.  [wednesdayNoon] is Wednesday
    2022-08-10, 12:00 UTC, so that the first boundary of a run made then is
    Sunday 2022-08-07, 00:00 UTC. *)
Definition sunday_2022_08_07 : Z := 738373.

Definition wednesdayNoon : Time :=
  mkTime ((sunday_2022_08_07 + 3) * nsPerDay + 43200 * nsPerSecond) 0.

(** An issue closed at the very instant of the first boundary. *)
Definition boundaryItem : Item :=
  exampleItem "id88" "A title" "Done" ["deployment"]
    (DateUTC sunday_2022_08_07) "".

(** The items of the scenario of the specification: completed on
    2022-08-01, on 2022-08-03 and on 2022-07-20. *)
Definition itemAug01 : Item :=
  exampleItem "id89" "A title" "Done" ["deployment"] (DateUTC 738367) "".
Definition itemAug03 : Item :=
  exampleItem "id23" "Update Something" "Done" [] (DateUTC 738369) "main".
Definition itemJul20 : Item :=
  exampleItem "id24" "Something else" "Done" [] (DateUTC 738355) "".

(** An issue closed at the start of the newest window of a run made at
    [wednesdayNoon]: Sunday 2022-07-31, 00:00 UTC. *)
Definition startItem : Item :=
  exampleItem "id87" "A title" "Done" [] (DateUTC 738366) "".

(** A section that takes the label ["deployment"] and the titles that
    start with ["A"]. *)
Definition deploySection : ReportSection :=
  mkSection "Deployments" 1 true (mkMatch ["deployment"] ["A"] []).

(** A draft without any field. *)
Definition draftItem : Item :=
  mkItem "draft" false ∅ [] (DateUTC 738370) "DRAFT_ISSUE" 0 ""
    (mkRepo "" "" "" "").

(** Examples for the regular-expression revision: an issue with the label
    ["bug"], and a section that takes this label and has a branch rule
    whose pattern, ["("], does not compile. *)
Definition legacyIssue : Legacy.Item :=
  Legacy.mkItem "id88" false
    (<["Title" := Legacy.mkField FIELD_TEXT "Title" zeroTime zeroTime 0
                    "A title" 0 "" zeroTime ""]> ∅)
    ["bug"] (DateUTC 738370) "ISSUE" 88 "https://github.com/org/repo/issues/88"
    (mkRepo "repo" "org/repo" "https://github.com/org/repo" "").

Definition badSection : Legacy.ReportSection :=
  Legacy.mkSection "Bugs" 1 true
    (Legacy.mkMatch ["bug"] [] [Legacy.mkBranch "org" "repo" "("]).

Definition badConfig : Legacy.Config :=
  Legacy.mkConfig (mkLabelSection true 100)
    (Legacy.mkUnclassified "Unclassified Items" 1000 true)
    [badSection].

Definition legacyWeek : Legacy.WeeklyItems :=
  Legacy.mkWeek [legacyIssue] (DateUTC 738366) (DateUTC 738373).

(** ** The rest of the report core

    The label counts of [structs.go], the archive loop of [main.go], the
    normalisation of the GraphQL records ([GqlItem.ToClean]) and the window
    loop of the revision of [main.go] that came before [schedule.go]. *)

(** Some rule of the section takes the item. *)
Definition sectionMatch {G : GlobMatcher} (s : ReportSection) (item : Item) : bool :=
  byLabel s item || byPrefix s item || byBranch s item.

(** [GetUniqLabels]: the labels and the number of times they were
    encountered in the list. *)
Definition GetUniqLabels (items : Items) : gmap string Z :=
  List.fold_left (fun rv item => List.fold_left countLabel (Labels item) rv)
    items ∅.

(** The part of [Config] that [render] reads. *)
Record UnclassifiedCfg : Type := mkUnclassified {
  uName : string;
  uRenderOrder : Z;
  uOmitIfEmpty : bool
}.

Record SummaryCfg : Type := mkSummary {
  sumEnabled : bool;
  sumName : string;
  sumRenderOrder : Z;
  sumBody : string
}.

Record Config : Type := mkConfig {
  Team : string;
  LabelSection : LabelSectionCfg;
  Unclassified : UnclassifiedCfg;
  Summary : SummaryCfg;
  Sections : list ReportSection
}.

(** The summary section: ["\n## %s\n\n"] and ["%s\n\n"]. *)
Definition renderSummary (c : SummaryCfg) : string :=
  (newline ++ "## " ++ sumName c ++ newline ++ newline
   ++ sumBody c ++ newline ++ newline)%string.

(** The map [sections] that [render] fills, by render order, before it
    writes it out by ascending order: the user sections, then the
    unclassified section, then the label section and the summary when
    they are enabled. *)
Definition renderSections {G : GlobMatcher} (cfg : Config) (week : WeeklyItems)
    : gmap Z string :=
  let left_ := wItems week in
  let '(sections, left_) := List.fold_left renderStep (Sections cfg) (∅, left_) in
  let sections :=
    <[uRenderOrder (Unclassified cfg) :=
        Render (mkSection (uName (Unclassified cfg))
                  (uRenderOrder (Unclassified cfg))
                  (uOmitIfEmpty (Unclassified cfg)) (mkMatch [] [] []))
          left_ ""]> sections in
  let sections :=
    if lsEnabled (LabelSection cfg)
    then <[lsRenderOrder (LabelSection cfg) :=
             renderLabels (GetUniqLabels (wItems week))]> sections
    else sections in
  if sumEnabled (Summary cfg)
  then <[sumRenderOrder (Summary cfg) := renderSummary (Summary cfg)]> sections
  else sections.

(** The summary, or the label section, is enabled and has the order [k]. *)
Definition summaryAt (cfg : Config) (k : Z) : bool :=
  sumEnabled (Summary cfg) && (sumRenderOrder (Summary cfg) =? k).

Definition labelsAt (cfg : Config) (k : Z) : bool :=
  lsEnabled (LabelSection cfg) && (lsRenderOrder (LabelSection cfg) =? k).

(** Two sections with the same render order, the label section and the
    summary enabled under orders of their own. *)
Definition twoSectionsConfig : Config :=
  mkConfig "Team" (mkLabelSection true 100)
    (mkUnclassified "Unclassified Items" 1000 true)
    (mkSummary true "Summary" 5 "All is well.")
    [mkSection "First" 1 false (mkMatch ["deployment"] [] []);
     mkSection "Second" 1 false (mkMatch [] ["Update"] [])].

(** [archive]: every item of every window is handed to [archiveItem], a
    call to the remote service that answers with an error or with none;
    the first error ends the run.  The result is the list of the items
    archived, in order, and the error, if any. *)
Section Archive.
Context (archiveItem : string -> option string).

Fixpoint archiveItems (items : Items) (archived : list string)
    : list string * option string :=
  match items with
  | [] => (archived, None)
  | item :: rest =>
      match archiveItem (ID item) with
      | Some err => (archived, Some err)
      | None => archiveItems rest (archived ++ [ID item])%list
      end
  end.

Fixpoint archiveFrom (weeks : Weeks) (archived : list string)
    : list string * option string :=
  match weeks with
  | [] => (archived, None)
  | week :: rest =>
      match archiveItems (wItems week) archived with
      | (archived, Some err) => (archived, Some err)
      | (archived, None) => archiveFrom rest archived
      end
  end.

Definition archive (weeks : Weeks) : list string * option string :=
  archiveFrom weeks [].

(** Where a run over a list of identifiers stops: the identifiers done,
    the error and the identifiers not reached. *)
Definition stopsAt (ids done : list string) (err : option string) : Prop :=
  exists rest,
    ids = (done ++ rest)%list /\
    (forall id, In id done -> archiveItem id = None) /\
    match err with
    | None => rest = []
    | Some e => exists id rest', rest = id :: rest' /\ archiveItem id = Some e
    end.

End Archive.

(** The GraphQL records and their normalisation.  A pointer is an option. *)
Module Gql.

Record FieldCommon : Type := mkFieldCommon { Name : string }.

Record FieldTextValue : Type := mkTextValue {
  tvField : option FieldCommon;
  tvText : option string
}.

Record FieldDateValue : Type := mkDateValue {
  dvField : option FieldCommon;
  dvDate : option Time
}.

Record FieldNumberValue : Type := mkNumberValue {
  nvField : option FieldCommon;
  nvNumber : option Z
}.

Record FieldSingleSelectValue : Type := mkSelectValue {
  svField : option FieldCommon;
  svName : option string
}.

Record FieldIterationValue : Type := mkIterationValue {
  ivField : option FieldCommon;
  ivDuration : Z;
  ivIterationId : string;
  ivStartDate : option Time;
  ivTitle : string
}.

Record Repository : Type := mkRepository {
  repoName : string;
  repoNameWithOwner : string;
  repoURL : string
}.

Record Issue : Type := mkIssue {
  issClosedAt : option Time;
  issNumber : Z;
  issURL : string;
  issRepository : Repository
}.

Record PullRequest : Type := mkPullRequest {
  prClosedAt : option Time;
  prMergedAt : option Time;
  prNumber : Z;
  prURL : string;
  prBaseRefName : string;
  prRepository : Repository
}.

Record Label : Type := mkLabel { lName : string }.

Record FieldValueNode : Type := mkNode {
  DateValue : FieldDateValue;
  IterationValue : FieldIterationValue;
  NodeLabels : list Label;
  NumberValue : FieldNumberValue;
  SelectValue : FieldSingleSelectValue;
  TextValue : FieldTextValue
}.

Record GqlItem : Type := mkGqlItem {
  gID : string;
  IsArchived : bool;
  FieldValues : list FieldValueNode;
  gIssue : Issue;
  gPR : PullRequest
}.

(** [Field{}] *)
Definition emptyField : Field := mkField FIELD_EMPTY "" zeroTime 0 "" 0 "" zeroTime "".

Definition TextGet (v : FieldTextValue) : Field :=
  match tvField v, tvText v with
  | Some f, Some text => mkField FIELD_TEXT (Name f) zeroTime 0 text 0 "" zeroTime ""
  | _, _ => emptyField
  end.

Definition DateGet (v : FieldDateValue) : Field :=
  match dvField v, dvDate v with
  | Some f, Some date => mkField FIELD_DATE (Name f) date 0 "" 0 "" zeroTime ""
  | _, _ => emptyField
  end.

Definition NumberGet (v : FieldNumberValue) : Field :=
  match nvField v, nvNumber v with
  | Some f, Some number => mkField FIELD_NUMBER (Name f) zeroTime number "" 0 "" zeroTime ""
  | _, _ => emptyField
  end.

Definition SelectGet (v : FieldSingleSelectValue) : Field :=
  match svField v, svName v with
  | Some f, Some name => mkField FIELD_TEXT (Name f) zeroTime 0 name 0 "" zeroTime ""
  | _, _ => emptyField
  end.

(** [time.Hour * 24 * time.Duration(v.Duration)], on 64 bits. *)
Definition IterationGet (v : FieldIterationValue) : Field :=
  match ivField v, ivStartDate v with
  | Some f, Some startDate =>
      mkField FIELD_ITERATION (Name f) zeroTime 0 ""
        (wrapInt (3600 * nsPerSecond * 24 * ivDuration v))
        (ivIterationId v) startDate (ivTitle v)
  | _, _ => emptyField
  end.

(** The values that a node of field values can give. *)
Definition nodeFields (n : FieldValueNode) : list Field :=
  [DateGet (DateValue n); IterationGet (IterationValue n);
   NumberGet (NumberValue n); SelectGet (SelectValue n); TextGet (TextValue n)].

(** [if f.Type != FIELD_EMPTY { rv.Fields[f.Name] = f }] *)
Definition setField (rv : Item) (f : Field) : Item :=
  if fType f =? FIELD_EMPTY then rv
  else mkItem (ID rv) (Archived rv) (<[fName f := f]> (Fields rv)) (Labels rv)
         (DoneAt rv) (ItemType rv) (Number rv) (URL rv) (Repo rv).

(** One turn of the loop over the field values of [ToClean]. *)
Definition cleanNode (rv : Item) (n : FieldValueNode) : Item :=
  let rv := setField rv (DateGet (DateValue n)) in
  let rv := setField rv (IterationGet (IterationValue n)) in
  let rv := setField rv (NumberGet (NumberValue n)) in
  let rv := setField rv (SelectGet (SelectValue n)) in
  let rv := setField rv (TextGet (TextValue n)) in
  mkItem (ID rv) (Archived rv) (Fields rv)
    (Labels rv ++ List.map lName (NodeLabels n))%list
    (DoneAt rv) (ItemType rv) (Number rv) (URL rv) (Repo rv).

Definition cleanIssue (rv : Item) (i : Issue) : Item :=
  match issClosedAt i with
  | Some closedAt =>
      mkItem (ID rv) (Archived rv) (Fields rv) (Labels rv) closedAt "ISSUE"
        (issNumber i) (issURL i)
        (mkRepo (repoName (issRepository i)) (repoNameWithOwner (issRepository i))
           (repoURL (issRepository i)) (rBranch (Repo rv)))
  | None => rv
  end.

Definition withPR (rv : Item) (pr : PullRequest) (doneAt : Time) : Item :=
  mkItem (ID rv) (Archived rv) (Fields rv) (Labels rv) doneAt "PR"
    (prNumber pr) (prURL pr)
    (mkRepo (repoName (prRepository pr)) (repoNameWithOwner (prRepository pr))
       (repoURL (prRepository pr)) (prBaseRefName pr)).

Definition cleanPR (rv : Item) (pr : PullRequest) : Item :=
  match prMergedAt pr, prClosedAt pr with
  | Some mergedAt, _ => withPR rv pr mergedAt
  | None, Some closedAt => withPR rv pr closedAt
  | None, None => rv
  end.

(** [ToClean] normalises an item from github into an [Item]. *)
Definition ToClean (g : GqlItem) : Item :=
  let rv := mkItem (gID g) (IsArchived g) ∅ [] zeroTime "" 0 ""
              (mkRepo "" "" "" "") in
  let rv := cleanIssue rv (gIssue g) in
  let rv := cleanPR rv (gPR g) in
  List.fold_left cleanNode (FieldValues g) rv.

End Gql.

(** The window loop of the revision of [main.go] that came before
    [schedule.go], on the items of the regular-expression revision: the
    completion time is [UpdatedAt], the list is not sorted, and the first
    filter is made at the start of the newest window. *)
Module LegacyWindows.

Definition IsDone (it : Legacy.Item) : bool :=
  match Legacy.Fields it !! "Status" with
  | Some status =>
      (Legacy.fType status =? FIELD_TEXT)
      && String.eqb "done" (ToLower (Legacy.fText status))
  | None => false
  end.

Definition DoneAt (it : Legacy.Item) : Time :=
  match Legacy.Fields it !! "Status" with
  | Some status =>
      if (Legacy.fType status =? FIELD_TEXT)
         && String.eqb "done" (ToLower (Legacy.fText status))
      then Legacy.UpdatedAt it
      else zeroTime
  | None => zeroTime
  end.

Definition GetOlder (items : Legacy.Items) (when : Time) : Legacy.Items :=
  List.filter
    (fun item =>
       let at_ := DoneAt item in
       negb (Equal at_ zeroTime) && (Before at_ when || Equal at_ when))
    items.

Definition GetInRange (items : Legacy.Items) (start end_ : Time) : Legacy.Items :=
  let '(start, end_) := if After start end_ then (end_, start) else (start, end_) in
  List.filter
    (fun item =>
       let at_ := DoneAt item in
       negb (Equal at_ zeroTime)
       && ((Before at_ end_ && After at_ start) || Equal at_ start))
    items.

Fixpoint splitLoop (fuel : nat) (weeks : list Legacy.WeeklyItems)
    (items : Legacy.Items) (start end_ : Time) : option (list Legacy.WeeklyItems) :=
  match items with
  | [] => Some weeks
  | _ :: _ =>
      match fuel with
      | O => None
      | S fuel' =>
          let issues := GetInRange items start end_ in
          let items' := GetOlder items start in
          let weeks' := (weeks ++ [Legacy.mkWeek issues start end_])%list in
          splitLoop fuel' weeks' items' (getPreviousSunday start) start
      end
  end.

Definition splitByWeeks (fuel : nat) (items : Legacy.Items) (now : Time)
    : option (list Legacy.WeeklyItems) :=
  let end_ := getClosestSunday now in
  let start := getPreviousSunday end_ in
  let items := GetOlder items start in
  splitLoop fuel [] items start end_.

End LegacyWindows.

(** A pattern without any ["*"]. *)
Fixpoint starFree (s : string) : bool :=
  match s with
  | EmptyString => true
  | String c s' => negb (Ascii.eqb c "*"%char) && starFree s'
  end.

(** An open issue whose status, a single-select value, reads "Done". *)
Definition gqlOpenIssue : Gql.GqlItem :=
  Gql.mkGqlItem "id90" false
    [Gql.mkNode (Gql.mkDateValue None None)
       (Gql.mkIterationValue None 0 "" None "")
       [Gql.mkLabel "bug"]
       (Gql.mkNumberValue None None)
       (Gql.mkSelectValue (Some (Gql.mkFieldCommon "Status")) (Some "Done"))
       (Gql.mkTextValue None None)]
    (Gql.mkIssue None 90 "https://github.com/org/repo/issues/90"
       (Gql.mkRepository "repo" "org/repo" "https://github.com/org/repo"))
    (Gql.mkPullRequest None None 0 "" "" (Gql.mkRepository "" "" "")).

(** An issue of the regular-expression revision whose status reads
    "Done", updated on Wednesday 2022-08-03. *)
Definition legacyDoneIssue : Legacy.Item :=
  Legacy.mkItem "id91" false
    (<["Status" := Legacy.mkField FIELD_TEXT "Status" zeroTime zeroTime 0
                     "Done" 0 "" zeroTime ""]> ∅)
    [] (DateUTC 738369) "ISSUE" 91 "https://github.com/org/repo/issues/91"
    (mkRepo "repo" "org/repo" "https://github.com/org/repo" "").

(** A section of the regular-expression revision whose branch rule
    compiles. *)
Definition goodConfig : Legacy.Config :=
  Legacy.mkConfig (mkLabelSection true 100)
    (Legacy.mkUnclassified "Unclassified Items" 1000 true)
    [Legacy.mkSection "Bugs" 1 true
       (Legacy.mkMatch ["bug"] [] [Legacy.mkBranch "org" "repo" "main"])].

(** The report of a window: its sections as [render] gives them, under
    the bounds of the window. *)
Definition reportOf {R : Legacy.RegexpLib} (cfg : Legacy.Config)
    (week : Legacy.WeeklyItems) (r : Legacy.Report) : Prop :=
  Legacy.renderSections cfg week = Legacy.Returned (Legacy.repData r) /\
  Legacy.repStart r = Legacy.wStart week /\
  Legacy.repEnd r = Legacy.wEnd week.

(** The window after [legacyWeek], and a disk that takes the file of
    [legacyWeek] and no other. *)
Definition laterLegacyWeek : Legacy.WeeklyItems :=
  Legacy.mkWeek [] (DateUTC 738373) (DateUTC 738380).

Definition oneFileOnly (r : Legacy.Report) : option string :=
  if instant (Legacy.repStart r) =? instant (DateUTC 738366)
  then None else Some "no space left on device".

(** What the label rules and the prefix rules of a section of the
    regular-expression revision take of a pool, and what they leave to the
    branch rules. *)
Definition legacyLabelPart (s : Legacy.ReportSection) (pool : Legacy.Items)
    : Legacy.Items :=
  fst (Legacy.ExtractByLabels pool (Legacy.mLabel (Legacy.sMatch s))).

Definition legacyPrefixPart (s : Legacy.ReportSection) (pool : Legacy.Items)
    : Legacy.Items :=
  fst (Legacy.ExtractByPrefixes
         (snd (Legacy.ExtractByLabels pool (Legacy.mLabel (Legacy.sMatch s))))
         (Legacy.mPrefix (Legacy.sMatch s))).

Definition legacyAfterPrefix (s : Legacy.ReportSection) (pool : Legacy.Items)
    : Legacy.Items :=
  snd (Legacy.ExtractByPrefixes
         (snd (Legacy.ExtractByLabels pool (Legacy.mLabel (Legacy.sMatch s))))
         (Legacy.mPrefix (Legacy.sMatch s))).

(** The report of a window, once rendered. *)
Definition legacyReport (week : Legacy.WeeklyItems) (data : gmap Z string)
    : Legacy.Report :=
  Legacy.mkReport (Legacy.wStart week) (Legacy.wEnd week) data.

(** * Properties of the classification *)

Section ExtractFacts.
Context {G : GlobMatcher}.

Lemma partition_Permutation {A : Type} (f : A -> bool) (l : list A) :
  Permutation (fst (List.partition f l) ++ snd (List.partition f l)) l.
Proof.
  induction l as [|x l IH]; simpl; [constructor|].
  destruct (List.partition f l) as [yes no]; simpl in *.
  destruct (f x); simpl.
  - now constructor.
  - symmetry. apply Permutation_cons_app. now symmetry.
Qed.

(** The branch loop only moves items from the pool to the section. *)
Lemma extractBranches_shape (branches : list Branch) (mine pool : Items) :
  exists br,
    fst (List.fold_left extractBranchStep branches (mine, pool)) = (mine ++ br)%list /\
    Permutation (br ++ snd (List.fold_left extractBranchStep branches (mine, pool))) pool.
Proof.
  revert mine pool.
  induction branches as [|b branches IH]; intros mine pool; simpl.
  - exists []. rewrite app_nil_r. split; reflexivity.
  - pose proof (partition_Permutation
                  (fun item => IsBranch item (bOrg b) (bRepo b) (bBranch b)) pool) as Hp.
    unfold ExtractByBranch.
    destruct (List.partition _ pool) as [tmp rest]; simpl in Hp.
    destruct (IH (mine ++ tmp)%list rest) as [br [Hm Hl]].
    exists (tmp ++ br)%list. split.
    + rewrite Hm. now rewrite <- app_assoc.
    + rewrite <- app_assoc. rewrite <- Hp. now apply Permutation_app_head.
Qed.

(** The three families of [Extract], one after the other: the items with
    a label of the section, then, among the others, the items with a
    prefix of the section, then, among the others again, what the branch
    rules take. *)
Lemma Extract_shape (s : ReportSection) (items : Items) :
  exists br,
    Extract s items =
      ((List.filter (byLabel s) items ++
        List.filter (byPrefix s)
          (List.filter (fun x => negb (byLabel s x)) items) ++ br)%list,
       snd (Extract s items)) /\
    Permutation (br ++ snd (Extract s items))
      (List.filter (fun x => negb (byPrefix s x))
         (List.filter (fun x => negb (byLabel s x)) items)).
Proof.
  unfold Extract, ExtractByLabels, ExtractByPrefixes.
  rewrite !partition_as_filter.
  fold (byLabel s). fold (byPrefix s).
  match goal with
  | |- context [List.fold_left extractBranchStep ?bs (?m, ?p)] =>
      destruct (extractBranches_shape bs m p) as [br [Hm Hl]];
      destruct (List.fold_left extractBranchStep bs (m, p)) as [mine left_] eqn:E
  end.
  simpl in Hm, Hl. subst mine.
  exists br. simpl. split; [|exact Hl].
  now rewrite <- app_assoc.
Qed.

Lemma filter_split_Permutation {A : Type} (f : A -> bool) (l : list A) :
  Permutation (List.filter f l ++ List.filter (fun x => negb (f x)) l) l.
Proof.
  pose proof (partition_Permutation f l) as H.
  now rewrite partition_as_filter in H.
Qed.

Lemma Extract_Permutation (s : ReportSection) (items : Items) :
  Permutation (fst (Extract s items) ++ snd (Extract s items)) items.
Proof.
  destruct (Extract_shape s items) as [br [He Hp]].
  rewrite He at 1. simpl.
  rewrite <- !app_assoc.
  rewrite Hp.
  rewrite (filter_split_Permutation (byPrefix s)).
  apply filter_split_Permutation.
Qed.

Lemma classify_fold_Permutation (sections : list ReportSection)
    (buckets : list Items) (pool : Items) :
  Permutation
    (concat (fst (List.fold_left classifyStep sections (buckets, pool)))
     ++ snd (List.fold_left classifyStep sections (buckets, pool)))
    (concat buckets ++ pool) /\
  length (fst (List.fold_left classifyStep sections (buckets, pool)))
    = (length buckets + length sections)%nat.
Proof.
  revert buckets pool.
  induction sections as [|s sections IH]; intros buckets pool; simpl.
  - split; [reflexivity | lia].
  - pose proof (Extract_Permutation s pool) as Hs.
    destruct (Extract s pool) as [mine left_]; simpl in Hs.
    destruct (IH (buckets ++ [mine])%list left_) as [Hp Hl].
    split.
    + rewrite Hp. rewrite concat_app. simpl. rewrite app_nil_r.
      rewrite <- app_assoc. now apply Permutation_app_head.
    + rewrite Hl. rewrite length_app. simpl. lia.
Qed.

(** C3. Partition completeness: for every item list and every ordered
    sequence of sections, the buckets of the sections together with the
    unclassified rest hold the items of the list, each one exactly as
    often as the list does; there is one bucket per section. *)
Theorem classify_partition (sections : list ReportSection) (items : Items) :
  Permutation
    (concat (fst (classify sections items)) ++ snd (classify sections items))
    items /\
  length (fst (classify sections items)) = length sections.
Proof.
  unfold classify.
  destruct (classify_fold_Permutation sections [] items) as [Hp Hl].
  split; [exact Hp | exact Hl].
Qed.

(** The loop of [render] leaves over what [classify] leaves over. *)
Lemma renderStep_classifyStep (sections : list ReportSection)
    (rendered : gmap Z string) (buckets : list Items) (pool : Items) :
  snd (List.fold_left renderStep sections (rendered, pool)) =
  snd (List.fold_left classifyStep sections (buckets, pool)).
Proof.
  revert rendered buckets pool.
  induction sections as [|s sections IH]; intros rendered buckets pool; simpl.
  - reflexivity.
  - unfold ExtractAndRender.
    destruct (Extract s pool) as [mine left_].
    apply IH.
Qed.

(** C4. First match wins inside a section: the output of [Extract] is
    made of the label family first, then the prefix family, then the
    branch family, the later families drawing only on the items the label
    family did not take.  An item of the list that matches a label of the
    section, and a prefix or a branch of the section as well, is in the
    label part, as often as it is in the list, and neither in the later
    parts nor in the items left over. *)
Theorem Extract_label_first (s : ReportSection) (items : Items) (it : Item) :
  In it items ->
  byLabel s it = true ->
  byPrefix s it = true \/ byBranch s it = true ->
  exists pre br,
    Extract s items =
      ((List.filter (byLabel s) items ++ pre ++ br)%list, snd (Extract s items)) /\
    pre = List.filter (byPrefix s)
            (List.filter (fun x => negb (byLabel s x)) items) /\
    In it (List.filter (byLabel s) items) /\
    ~ In it pre /\ ~ In it br /\ ~ In it (snd (Extract s items)).
Proof.
  intros Hin Hlab _.
  destruct (Extract_shape s items) as [br [He Hp]].
  exists (List.filter (byPrefix s)
            (List.filter (fun x => negb (byLabel s x)) items)), br.
  assert (Hrest : forall l', In it (List.filter (fun x => negb (byLabel s x)) l') -> False).
  { intros l' H. apply filter_In in H. destruct H as [_ H].
    rewrite Hlab in H. discriminate. }
  assert (Hpool : In it (br ++ snd (Extract s items)) -> False).
  { intros H. eapply Permutation_in in H; [|exact Hp].
    apply filter_In in H. destruct H as [H _]. now apply Hrest in H. }
  split; [exact He|]. split; [reflexivity|].
  split; [apply filter_In; now split|].
  split; [|split].
  - intros H. apply filter_In in H. destruct H as [H _]. now apply Hrest in H.
  - intros H. apply Hpool. apply in_or_app. now left.
  - intros H. apply Hpool. apply in_or_app. now right.
Qed.
End ExtractFacts.

(** The issue of 2022-08-01 has the label and the title prefix of
    [deploySection]. *)
Lemma Extract_label_first_witness :
  exists pre br,
    Extract deploySection [itemAug01; itemAug03] =
      ((List.filter (byLabel deploySection) [itemAug01; itemAug03] ++ pre ++ br)%list,
       snd (Extract deploySection [itemAug01; itemAug03])) /\
    pre = List.filter (byPrefix deploySection)
            (List.filter (fun x => negb (byLabel deploySection x))
               [itemAug01; itemAug03]) /\
    In itemAug01 (List.filter (byLabel deploySection) [itemAug01; itemAug03]) /\
    ~ In itemAug01 pre /\ ~ In itemAug01 br /\
    ~ In itemAug01 (snd (Extract deploySection [itemAug01; itemAug03])).
Proof.
  apply (Extract_label_first deploySection [itemAug01; itemAug03] itemAug01).
  - now left.
  - reflexivity.
  - left. reflexivity.
Defined.

Example Extract_deploySection :
  Extract deploySection [itemAug01; itemAug03] = ([itemAug01], [itemAug03]).
Proof. reflexivity. Qed.

(** * Properties of the matchers *)

(** C7. [IsBranch] holds exactly when the item has a non-empty slug and a
    non-empty branch and both match their pattern: with an empty slug or an
    empty branch it is false for every pattern. *)
Theorem IsBranch_iff {G : GlobMatcher} (it : Item) (org repo branch : string) :
  IsBranch it org repo branch = true <->
  rSlug (Repo it) <> "" /\ rBranch (Repo it) <> "" /\
  Glob (TrimSpace org ++ "/" ++ TrimSpace repo)%string
       (TrimSpace (rSlug (Repo it))) = true /\
  Glob (TrimSpace branch) (TrimSpace (rBranch (Repo it))) = true.
Proof.
  unfold IsBranch.
  rewrite !andb_true_iff.
  assert (Hne : forall x, nonEmpty x = true <-> x <> "").
  { intros [|c x]; simpl; split; congruence. }
  rewrite !Hne. tauto.
Qed.

(** An issue, which has no branch, and the branch rule that takes
    everything. *)
Lemma IsBranch_iff_witness :
  IsBranch itemAug01 "*" "*" "*" = true <->
  rSlug (Repo itemAug01) <> "" /\ rBranch (Repo itemAug01) <> "" /\
  Glob (TrimSpace "*" ++ "/" ++ TrimSpace "*")%string
       (TrimSpace (rSlug (Repo itemAug01))) = true /\
  Glob (TrimSpace "*") (TrimSpace (rBranch (Repo itemAug01))) = true.
Proof. apply (IsBranch_iff itemAug01 "*" "*" "*"). Defined.

(** Read on the empty cases, directly on the code. *)
Lemma IsBranch_empty {G : GlobMatcher} (it : Item) (org repo branch : string) :
  rSlug (Repo it) = "" \/ rBranch (Repo it) = "" ->
  IsBranch it org repo branch = false.
Proof.
  unfold IsBranch. intros [-> | ->]; simpl; [reflexivity|].
  now rewrite andb_false_r.
Qed.

(** An issue has no branch: no branch rule takes it, whatever the globs. *)
Example IsBranch_issue :
  IsBranch (exampleItem "id88" "A title" "Done" ["deployment"] (DateUTC 738370) "")
    "*" "*" "*" = false.
Proof. apply IsBranch_empty. right. reflexivity. Qed.

Example IsBranch_pull_request :
  IsBranch (exampleItem "id23" "Update Something" "Done" [] (DateUTC 738370) "main")
    "*" "*" "*" = true.
Proof. reflexivity. Qed.

Lemma goGlob_star (subj : string) : goGlob "*" subj = true.
Proof. reflexivity. Qed.

Lemma goGlob_deployment (subj : string) :
  goGlob "deployment" subj = String.eqb subj "deployment".
Proof. reflexivity. Qed.

(** C5, as stated, fails on the glob matcher: ["*"] does not match an item
    without labels, and ["deployment"] does not match the label
    ["Deployment"]. *)
Lemma HasLabel_star_and_case_counterexample :
  HasLabel (exampleItem "id23" "Update Something" "Done" [] (DateUTC 738370) "main")
    "*" = false /\
  HasLabel (exampleItem "id88" "A title" "Done" ["Deployment"] (DateUTC 738370) "")
    "deployment" = false.
Proof. split; reflexivity. Qed.

(** C5, amended. With the glob matcher the pattern ["*"] matches exactly the
    items that carry at least one label, whatever the labels are, and the
    pattern ["deployment"] matches exactly the items with a label that
    reads ["deployment"] once trimmed, in this very case. *)
Theorem HasLabel_glob_patterns (it : Item) :
  (HasLabel it "*" = true <-> Labels it <> []) /\
  (HasLabel it "deployment" = true <->
   exists label, In label (Labels it) /\ TrimSpace label = "deployment").
Proof.
  unfold HasLabel. split.
  - change (TrimSpace "*") with "*".
    destruct (Labels it) as [|label labels]; simpl.
    + split; [discriminate | congruence].
    + split; [discriminate | reflexivity].
  - change (TrimSpace "deployment") with "deployment".
    rewrite existsb_exists. split.
    + intros [label [Hin Hm]]. exists label. split; [exact Hin|].
      unfold Glob, goGlobMatcher in Hm. rewrite goGlob_deployment in Hm.
      now apply String.eqb_eq in Hm.
    + intros [label [Hin Hm]]. exists label. split; [exact Hin|].
      unfold Glob, goGlobMatcher. rewrite goGlob_deployment.
      now apply String.eqb_eq.
Qed.

(** In the revision that compared labels itself, ["*"] matched every item
    and the case of a label did not matter. *)
Remark Legacy_HasLabel_star (it : Legacy.Item) : Legacy.HasLabel it "*" = true.
Proof. reflexivity. Qed.

Remark Legacy_HasLabel_case (it : Legacy.Item) :
  In "Deployment" (Legacy.Labels it) -> Legacy.HasLabel it "deployment" = true.
Proof.
  intros H. unfold Legacy.HasLabel.
  change (ToLower (TrimSpace "deployment")) with "deployment". simpl.
  apply existsb_exists. exists "Deployment". split; [exact H | reflexivity].
Qed.

(** * Properties of the stable sort *)

Section StableSortFacts.
Context {A : Type} (less : A -> A -> bool).

Lemma insertStable_Permutation (x : A) (l : list A) :
  Permutation (insertStable less x l) (x :: l).
Proof.
  induction l as [|y l IH]; simpl; [reflexivity|].
  destruct (less y x).
  - rewrite IH. apply perm_swap.
  - reflexivity.
Qed.

Lemma SliceStable_Permutation (l : list A) :
  Permutation (SliceStable less l) l.
Proof.
  induction l as [|x l IH]; simpl; [constructor|].
  rewrite insertStable_Permutation. now constructor.
Qed.

Lemma SliceStable_In (x : A) (l : list A) :
  In x (SliceStable less l) <-> In x l.
Proof.
  split; apply Permutation_in;
    [apply SliceStable_Permutation | symmetry; apply SliceStable_Permutation].
Qed.

(** Stability: the elements that satisfy a test which [less] cannot tell
    apart keep their input order. *)
Lemma insertStable_filter (p : A -> bool) (x : A) (l : list A) :
  (forall y, p x = true -> p y = true -> less y x = false) ->
  List.filter p (insertStable less x l) = List.filter p (x :: l).
Proof.
  intros Hp. induction l as [|y l IH]; simpl; [reflexivity|].
  destruct (less y x) eqn:E; simpl.
  - rewrite IH. simpl.
    destruct (p x) eqn:Ex, (p y) eqn:Ey; try reflexivity.
    rewrite (Hp y eq_refl Ey) in E. discriminate.
  - reflexivity.
Qed.

Lemma SliceStable_stable (p : A -> bool) (l : list A) :
  (forall x y, p x = true -> p y = true -> less y x = false) ->
  List.filter p (SliceStable less l) = List.filter p l.
Proof.
  intros Hp. induction l as [|x l IH]; simpl; [reflexivity|].
  rewrite insertStable_filter by (intros y; apply Hp).
  simpl. now rewrite IH.
Qed.
End StableSortFacts.

(** * Properties of the weekly windows *)

Ltac time_unfold :=
  unfold Equal, Before, After, AddDays, DateUTC, zeroTime, weekSpan,
    nsPerDay, nsPerSecond in *; simpl instant in *.

Lemma Zeqb_cases (x y : Z) : if x =? y then x = y else x <> y.
Proof. destruct (Z.eqb_spec x y); assumption. Qed.

(** Decides a boolean identity between comparisons of instants: every
    comparison is replaced by its two cases. *)
Ltac cmp_case cmp cases x y :=
  let H := fresh "Hcmp" in
  pose proof (cases x y) as H; destruct (cmp x y); cbv iota in H.

Ltac bool_lia :=
  time_unfold;
  repeat match goal with
    | |- context [Z.leb ?x ?y] => cmp_case Z.leb Zle_cases x y
    | |- context [Z.ltb ?x ?y] => cmp_case Z.ltb Zlt_cases x y
    | |- context [Z.eqb ?x ?y] => cmp_case Z.eqb Zeqb_cases x y
    end;
  simpl; try reflexivity; try lia.

Lemma AddDays_AddDays (t : Time) (a b : Z) :
  AddDays (AddDays t a) b = AddDays t (a + b).
Proof. unfold AddDays. simpl. f_equal. lia. Qed.

Lemma AddDays_0 (t : Time) : AddDays t 0 = t.
Proof. destruct t. unfold AddDays. simpl. f_equal. lia. Qed.

Lemma filter_filter_andb {A : Type} (f g : A -> bool) (l : list A) :
  List.filter f (List.filter g l) = List.filter (fun x => g x && f x) l.
Proof.
  induction l as [|x l IH]; simpl; [reflexivity|].
  destruct (g x); simpl; [destruct (f x)|]; now rewrite IH.
Qed.

Lemma GetOlder_In (items : Items) (when : Time) (it : Item) :
  In it (GetOlder items when) <->
  In it items /\ instant (Done it) <> 0 /\ instant (Done it) <= instant when.
Proof.
  unfold GetOlder. rewrite filter_In.
  split; intros [Hin H]; (split; [exact Hin|]); revert H; bool_lia;
    intros; try discriminate; try lia.
Qed.

(** In a window of seven days, [GetInRange] takes the items from the start,
    included, to the end, excluded. *)
Lemma GetInRange_week (items : Items) (end_ : Time) :
  GetInRange items (AddDays end_ (-7)) end_ = List.filter (inWindow end_ 0) items.
Proof.
  unfold GetInRange.
  replace (After (AddDays end_ (-7)) end_) with false by bool_lia.
  apply filter_ext. intros it. unfold inWindow.
  change (Z.of_nat 0) with 0. bool_lia.
Qed.

Lemma windowAt_shift (end_ : Time) (pool : Items) (j : nat) :
  (forall it, In it pool -> instant (Done it) <> 0) ->
  windowAt (AddDays end_ (-7)) (GetOlder pool (AddDays end_ (-7))) j =
  windowAt end_ pool (S j).
Proof.
  intros Hnz. unfold windowAt. rewrite !AddDays_AddDays. f_equal.
  - unfold GetOlder. rewrite filter_filter_andb.
    apply filter_ext_in. intros it Hin.
    specialize (Hnz it Hin).
    unfold inWindow. rewrite Nat2Z.inj_succ. revert Hnz. bool_lia.
  - f_equal. lia.
  - f_equal. lia.
Qed.

Lemma poolOk_GetOlder (items : Items) (when : Time) :
  poolOk (GetOlder items when) when.
Proof. intros it Hin. apply GetOlder_In in Hin. tauto. Qed.

(** The loop, when it ends, has emitted the windows 0 .. n-1, where the
    window [j] is emitted exactly when some item of the pool is at or
    before its end. *)
Lemma splitLoop_windows (fuel : nat) :
  forall (weeks : Weeks) (pool : Items) (end_ : Time) (res : Weeks),
    poolOk pool end_ ->
    splitLoop fuel weeks pool (AddDays end_ (-7)) end_ = Some res ->
    exists n,
      res = (weeks ++ List.map (windowAt end_ pool) (seq 0 n))%list /\
      forall j, (j < n)%nat <->
        exists it, In it pool /\
          instant (Done it) <= instant end_ - weekSpan * Z.of_nat j.
Proof.
  induction fuel as [|fuel IH]; intros weeks pool end_ res Hok Hrun.
  - destruct pool as [|i pool]; [|discriminate].
    injection Hrun as <-. exists O. simpl. rewrite app_nil_r.
    split; [reflexivity|]. intros j. split; [lia|]. intros (it & [] & _).
  - destruct pool as [|i pool].
    + injection Hrun as <-. exists O. simpl. rewrite app_nil_r.
      split; [reflexivity|]. intros j. split; [lia|]. intros (it & [] & _).
    + cbn [splitLoop] in Hrun. unfold getPreviousSunday in Hrun.
      set (items := i :: pool) in *.
      apply IH in Hrun; [|apply poolOk_GetOlder].
      destruct Hrun as (n & -> & Hn).
      exists (S n). split.
      * rewrite <- app_assoc. f_equal.
        change (seq 0 (S n)) with (O :: seq 1 n). cbn [List.map app]. f_equal.
        -- unfold windowAt. rewrite GetInRange_week.
           change (-7 * (Z.of_nat 0 + 1)) with (-7).
           change (-7 * Z.of_nat 0) with 0. now rewrite AddDays_0.
        -- rewrite <- seq_shift, map_map.
           apply map_ext. intros j. apply windowAt_shift.
           intros it Hin. now apply Hok.
      * intros j. destruct j as [|j].
        -- split; [|lia]. intros _. exists i. split; [now left|].
           destruct (Hok i (or_introl eq_refl)) as [_ H].
           change (Z.of_nat 0) with 0. lia.
        -- rewrite <- Nat.succ_lt_mono, Hn. rewrite Nat2Z.inj_succ.
           split; intros (it & Hin & Ht).
           ++ apply GetOlder_In in Hin. destruct Hin as (Hin & _ & _).
              exists it. split; [exact Hin|]. revert Ht. time_unfold. lia.
           ++ exists it. split.
              ** apply GetOlder_In. destruct (Hok it Hin) as [Hnz _].
                 split; [exact Hin|]. split; [exact Hnz|].
                 revert Ht. time_unfold. lia.
              ** revert Ht. time_unfold. lia.
Qed.

(** The loop ends within any fuel that covers every item of the pool. *)
Lemma splitLoop_ends (fuel : nat) :
  forall (weeks : Weeks) (pool : Items) (end_ : Time),
    poolOk pool end_ ->
    (forall it, In it pool -> (roundsFor end_ it <= fuel)%nat) ->
    exists res, splitLoop fuel weeks pool (AddDays end_ (-7)) end_ = Some res.
Proof.
  induction fuel as [|fuel IH]; intros weeks pool end_ Hok Hfuel.
  - destruct pool as [|i pool]; [now exists weeks|].
    exfalso.
    specialize (Hfuel i (or_introl eq_refl)).
    destruct (Hok i (or_introl eq_refl)) as [_ Hle].
    unfold roundsFor in Hfuel.
    assert (0 <= (instant end_ - instant (Done i)) `div` weekSpan)
      by (apply Z.div_pos; [lia | reflexivity]).
    lia.
  - destruct pool as [|i pool]; [now exists weeks|].
    cbn [splitLoop]. unfold getPreviousSunday.
    apply IH; [apply poolOk_GetOlder|].
    intros it Hin. apply GetOlder_In in Hin. destruct Hin as (Hin & _ & Hle).
    specialize (Hfuel it Hin). unfold roundsFor in *.
    replace (instant (AddDays end_ (-7)) - instant (Done it))
      with ((instant end_ - instant (Done it)) + (-1) * weekSpan)
      by (time_unfold; lia).
    rewrite Z.div_add by (unfold weekSpan, nsPerDay, nsPerSecond; lia).
    assert (0 <= (instant end_ - instant (Done it)) `div` weekSpan + -1).
    { assert (weekSpan <= instant end_ - instant (Done it))
        by (revert Hle; time_unfold; lia).
      assert (1 <= (instant end_ - instant (Done it)) `div` weekSpan).
      { apply Z.div_le_lower_bound; [reflexivity | lia]. }
      lia. }
    lia.
Qed.

Lemma splitLoop_more_fuel (fuel : nat) :
  forall (fuel' : nat) (weeks : Weeks) (pool : Items) (start end_ : Time)
         (res : Weeks),
    (fuel <= fuel')%nat ->
    splitLoop fuel weeks pool start end_ = Some res ->
    splitLoop fuel' weeks pool start end_ = Some res.
Proof.
  induction fuel as [|fuel IH]; intros fuel' weeks pool start end_ res Hle Hrun.
  - destruct pool; [|discriminate]. now destruct fuel'.
  - destruct pool as [|i pool]; [now destruct fuel'|].
    destruct fuel' as [|fuel']; [lia|].
    cbn [splitLoop] in *. apply IH; [lia | exact Hrun].
Qed.

Lemma splitFuel_covers (items : Items) (now : Time) (it : Item) :
  In it items -> (roundsFor (getClosestSunday now) it <= splitFuel items now)%nat.
Proof.
  unfold splitFuel. induction items as [|x items IH]; simpl; [tauto|].
  intros [-> | Hin]; [lia|]. specialize (IH Hin). lia.
Qed.

Lemma Permutation_filter_bool {A : Type} (f : A -> bool) (l l' : list A) :
  Permutation l l' -> Permutation (List.filter f l) (List.filter f l').
Proof.
  induction 1 as [|x l l' _ IH|x y l|l l' l'' _ IH1 _ IH2]; simpl.
  - constructor.
  - destruct (f x); [now constructor | exact IH].
  - destruct (f x), (f y); try reflexivity. apply perm_swap.
  - now transitivity (List.filter f l').
Qed.

Lemma filter_disjoint_app {A : Type} (a b c : A -> bool) (l : list A) :
  (forall x, In x l -> c x = a x || b x) ->
  (forall x, In x l -> a x && b x = false) ->
  Permutation (List.filter a l ++ List.filter b l) (List.filter c l).
Proof.
  induction l as [|x l IH]; intros Hc Hd; simpl; [constructor|].
  assert (IH' : Permutation (List.filter a l ++ List.filter b l) (List.filter c l)).
  { apply IH; intros y Hy; [apply Hc | apply Hd]; now right. }
  specialize (Hc x (or_introl eq_refl)). specialize (Hd x (or_introl eq_refl)).
  rewrite Hc. destruct (a x), (b x); simpl in *; try discriminate.
  - now constructor.
  - symmetry. apply Permutation_cons_app. now symmetry.
  - exact IH'.
Qed.

Lemma filter_none {A : Type} (f : A -> bool) (l : list A) :
  (forall x, In x l -> f x = false) -> List.filter f l = [].
Proof.
  induction l as [|x l IH]; intros H; simpl; [reflexivity|].
  rewrite (H x (or_introl eq_refl)). apply IH. intros y Hy. apply H. now right.
Qed.

(** The windows 0 .. n-1 together hold the items of the last n weeks. *)
Lemma windows_concat (end0 : Time) (pool : Items) (n : nat) :
  Permutation
    (concat (List.map (fun j => List.filter (inWindow end0 j) pool) (seq 0 n)))
    (List.filter
       (fun it => (instant end0 - weekSpan * Z.of_nat n <=? instant (Done it))
                  && (instant (Done it) <? instant end0))
       pool).
Proof.
  induction n as [|n IH].
  - simpl. rewrite filter_none; [constructor|].
    intros it _. change (Z.of_nat 0) with 0. bool_lia.
  - rewrite seq_S, map_app, concat_app. simpl. rewrite app_nil_r.
    rewrite IH. apply filter_disjoint_app; intros it _; unfold inWindow;
      rewrite ?Nat2Z.inj_succ; bool_lia.
Qed.

Lemma nth_error_windows (end0 : Time) (pool : Items) (n k : nat) (w : WeeklyItems) :
  nth_error (List.map (windowAt end0 pool) (seq 0 n)) k = Some w <->
  (k < n)%nat /\ w = windowAt end0 pool k.
Proof.
  rewrite nth_error_map.
  destruct (Nat.lt_ge_cases k n) as [Hlt | Hge].
  - rewrite nth_error_seq. destruct (Nat.ltb_spec k n); [|lia]. simpl.
    split; [intros [= <-]; now split | intros [_ ->]; reflexivity].
  - rewrite nth_error_seq. destruct (Nat.ltb_spec k n); [lia|]. simpl.
    split; [discriminate | lia].
Qed.

(** [getClosestSunday] returns midnight UTC of a Sunday. *)
Lemma getClosestSunday_is_sunday (now : Time) :
  exists day, getClosestSunday now = DateUTC day /\ (day + 1) `mod` 7 = 0.
Proof.
  unfold getClosestSunday, Weekday.
  set (wd := (localDay now + 1) `mod` 7).
  assert (Hday : localDay (AddDays now (-1 * wd)) = localDay now - wd).
  { unfold localDay, AddDays. simpl.
    replace (instant now + -1 * wd * nsPerDay + zoneOffset now * nsPerSecond)
      with (instant now + zoneOffset now * nsPerSecond + (- wd) * nsPerDay) by lia.
    rewrite Z.div_add by (unfold nsPerDay, nsPerSecond; lia). lia. }
  exists (localDay now - wd). split; [now rewrite Hday|].
  replace (localDay now - wd + 1) with ((localDay now + 1) - wd) by lia.
  subst wd. rewrite Zminus_mod_idemp_r. rewrite Z.sub_diag. reflexivity.
Qed.

(** No window starts or ends at the zero time, which is a Monday. *)
Lemma boundary_not_zero (now : Time) (k : Z) :
  instant (AddDays (getClosestSunday now) (-7 * k)) <> 0.
Proof.
  destruct (getClosestSunday_is_sunday now) as (day & -> & Hday).
  time_unfold. intros H.
  assert (day = 7 * k) by lia. subst day.
  replace (7 * k + 1) with (1 + k * 7) in Hday by lia.
  rewrite Z.mod_add in Hday by lia. discriminate.
Qed.

(** The run of [splitByWeeks]: with enough fuel it returns the windows
    0 .. n-1 over the items that have a completion time at or before the
    first boundary, where the window [j] is there exactly when some such
    item is at or before its end. *)
Lemma splitByWeeks_windows (items : Items) (now : Time) :
  exists n,
    (forall fuel, (splitFuel items now <= fuel)%nat ->
       splitByWeeks fuel items now =
       Some (List.map
               (windowAt (getClosestSunday now)
                  (GetOlder (SliceStable lessDoneAt items) (getClosestSunday now)))
               (seq 0 n))) /\
    (forall j, (j < n)%nat <->
       exists it, In it items /\ instant (Done it) <> 0 /\
         instant (Done it) <=
           instant (getClosestSunday now) - weekSpan * Z.of_nat j).
Proof.
  set (end0 := getClosestSunday now).
  set (pool := GetOlder (SliceStable lessDoneAt items) end0).
  assert (Hpool : forall it, In it pool <->
            In it items /\ instant (Done it) <> 0 /\
            instant (Done it) <= instant end0).
  { intros it. unfold pool. rewrite GetOlder_In, SliceStable_In. tauto. }
  destruct (splitLoop_ends (splitFuel items now) [] pool end0) as [res Hres].
  { apply poolOk_GetOlder. }
  { intros it Hin. apply splitFuel_covers. now apply Hpool in Hin. }
  destruct (splitLoop_windows _ _ _ _ _ (poolOk_GetOlder _ _) Hres) as (n & -> & Hn).
  exists n. split.
  - intros fuel Hfuel. unfold splitByWeeks, getPreviousSunday.
    fold end0. fold pool.
    eapply splitLoop_more_fuel; [exact Hfuel | exact Hres].
  - intros j. rewrite Hn. split.
    + intros (it & Hin & Ht). apply Hpool in Hin. exists it. tauto.
    + intros (it & Hin & Hnz & Ht). exists it. split; [|exact Ht].
      apply Hpool. split; [exact Hin|]. split; [exact Hnz|].
      revert Ht. time_unfold. lia.
Qed.

Lemma windowAt_In (items : Items) (end0 : Time) (k : nat) (it : Item) :
  In it (wItems (windowAt end0 (GetOlder (SliceStable lessDoneAt items) end0) k)) <->
  In it items /\ instant (Done it) <> 0 /\
  instant end0 - weekSpan * (Z.of_nat k + 1) <= instant (Done it)
    < instant end0 - weekSpan * Z.of_nat k.
Proof.
  unfold windowAt. simpl. rewrite filter_In, GetOlder_In, SliceStable_In.
  unfold inWindow. rewrite andb_true_iff, Z.leb_le, Z.ltb_lt.
  time_unfold. split; intros H; repeat split; try tauto; lia.
Qed.

(** ** The claims on the windows *)

(** C9. [splitByWeeks] terminates for every item list and every [now]:
    there is a number of iterations, computed from the list, within which
    the loop ends, and more fuel does not change the result.  Each
    iteration moves the window back by exactly seven days: the window
    number [k] ends [7 * k] days before the first boundary and starts seven
    days before it ends. *)
Theorem splitByWeeks_terminates (items : Items) (now : Time) :
  exists weeks,
    (forall fuel, (splitFuel items now <= fuel)%nat ->
       splitByWeeks fuel items now = Some weeks) /\
    (forall k w, nth_error weeks k = Some w ->
       wEnd w = AddDays (getClosestSunday now) (-7 * Z.of_nat k) /\
       wStart w = getPreviousSunday (wEnd w)).
Proof.
  destruct (splitByWeeks_windows items now) as (n & Hrun & _).
  eexists. split; [exact Hrun|].
  intros k w Hk. apply nth_error_windows in Hk. destruct Hk as [_ ->].
  unfold windowAt, getPreviousSunday. simpl.
  split; [reflexivity|]. rewrite AddDays_AddDays. f_equal. lia.
Qed.

(** C10. The windows are gapless, and idle weeks are reported: of two
    consecutive windows, the one emitted later ends where the one emitted
    before it starts; and the window number [k] is emitted, with its
    bounds, as soon as some item with a completion time is at or before its
    end, even when nothing falls in it, in which case its item list is
    empty. *)
Theorem splitByWeeks_gapless (items : Items) (now : Time) :
  exists weeks,
    (forall fuel, (splitFuel items now <= fuel)%nat ->
       splitByWeeks fuel items now = Some weeks) /\
    (forall k w1 w2,
       nth_error weeks k = Some w1 -> nth_error weeks (S k) = Some w2 ->
       wEnd w2 = wStart w1) /\
    (forall k older,
       In older items -> instant (Done older) <> 0 ->
       instant (Done older) <=
         instant (AddDays (getClosestSunday now) (-7 * Z.of_nat k)) ->
       exists w,
         nth_error weeks k = Some w /\
         wEnd w = AddDays (getClosestSunday now) (-7 * Z.of_nat k) /\
         wStart w = AddDays (wEnd w) (-7) /\
         ((forall it, In it items ->
             ~ (instant (wStart w) <= instant (Done it) < instant (wEnd w))) ->
          wItems w = [])).
Proof.
  destruct (splitByWeeks_windows items now) as (n & Hrun & Hn).
  eexists. split; [exact Hrun|]. split.
  - intros k w1 w2 H1 H2.
    apply nth_error_windows in H1, H2.
    destruct H1 as [_ ->], H2 as [_ ->].
    unfold windowAt. simpl. f_equal. lia.
  - intros k older Hin Hnz Hle.
    assert (Hk : (k < n)%nat).
    { apply Hn. exists older. split; [exact Hin|]. split; [exact Hnz|].
      revert Hle. time_unfold. lia. }
    eexists. split; [apply nth_error_windows; split; [exact Hk | reflexivity]|].
    split; [reflexivity|]. split.
    + unfold windowAt. simpl. rewrite AddDays_AddDays. f_equal. lia.
    + intros Hidle.
      destruct (wItems (windowAt (getClosestSunday now)
                  (GetOlder (SliceStable lessDoneAt items) (getClosestSunday now)) k))
        as [|it rest] eqn:E; [reflexivity|].
      exfalso.
      assert (Hit : In it (wItems (windowAt (getClosestSunday now)
                  (GetOlder (SliceStable lessDoneAt items) (getClosestSunday now)) k)))
        by (rewrite E; now left).
      apply windowAt_In in Hit. destruct Hit as (Hi & _ & Hr).
      apply (Hidle it Hi). unfold windowAt. cbn [wStart wEnd].
      revert Hr. generalize (getClosestSunday now). intros end0.
      time_unfold. lia.
Qed.

(** The scenario of the specification, run on Sunday 2022-08-07: the week
    of 2022-07-24, in which nothing was completed, is reported between the
    two others. *)
Lemma splitByWeeks_gapless_witness :
  exists w,
    nth_error
      [mkWeek [itemAug01; itemAug03] (DateUTC 738366) (DateUTC 738373);
       mkWeek [] (DateUTC 738359) (DateUTC 738366);
       mkWeek [itemJul20] (DateUTC 738352) (DateUTC 738359)] 1 = Some w /\
    wItems w = [].
Proof.
  destruct (splitByWeeks_gapless [itemAug01; itemAug03; itemJul20]
              (DateUTC sunday_2022_08_07)) as (weeks & Hrun & _ & Hidle).
  specialize (Hrun 10%nat).
  assert (Hw : weeks =
      [mkWeek [itemAug01; itemAug03] (DateUTC 738366) (DateUTC 738373);
       mkWeek [] (DateUTC 738359) (DateUTC 738366);
       mkWeek [itemJul20] (DateUTC 738352) (DateUTC 738359)]).
  { assert (Hf : (splitFuel [itemAug01; itemAug03; itemJul20]
                    (DateUTC sunday_2022_08_07) <= 10)%nat)
      by (apply Nat.leb_le; vm_compute; reflexivity).
    specialize (Hrun Hf).
    assert (Hc : splitByWeeks 10 [itemAug01; itemAug03; itemJul20]
                   (DateUTC sunday_2022_08_07) =
      Some [mkWeek [itemAug01; itemAug03] (DateUTC 738366) (DateUTC 738373);
            mkWeek [] (DateUTC 738359) (DateUTC 738366);
            mkWeek [itemJul20] (DateUTC 738352) (DateUTC 738359)])
      by (vm_compute; reflexivity).
    congruence. }
  subst weeks.
  destruct (Hidle 1%nat itemJul20) as (w & Hw1 & _ & _ & Hempty).
  - right; right; left; reflexivity.
  - vm_compute. discriminate.
  - vm_compute. discriminate.
  - exists w. split; [exact Hw1|].
    apply Hempty. intros it [<- | [<- | [<- | []]]];
      simpl in Hw1; injection Hw1 as <-; vm_compute; intros [H1 H2];
      try (now apply H1); try discriminate.
Defined.

(** C2. Inclusive at the start, exclusive at the end: an item of the list
    whose completion time is the start of an emitted window is in the items
    of that window, and not in the items of a window that ends at that
    time. *)
Theorem splitByWeeks_start_inclusive (items : Items) (now : Time) :
  exists weeks,
    (forall fuel, (splitFuel items now <= fuel)%nat ->
       splitByWeeks fuel items now = Some weeks) /\
    (forall k w it,
       nth_error weeks k = Some w -> In it items ->
       Equal (Done it) (wStart w) = true ->
       In it (wItems w) /\
       forall k' w',
         nth_error weeks k' = Some w' -> Equal (Done it) (wEnd w') = true ->
         ~ In it (wItems w')).
Proof.
  destruct (splitByWeeks_windows items now) as (n & Hrun & Hn).
  eexists. split; [exact Hrun|].
  intros k w it Hk Hin Heq.
  apply nth_error_windows in Hk. destruct Hk as [Hk ->].
  pose proof (boundary_not_zero now (Z.of_nat k + 1)) as Hnz.
  unfold windowAt in Heq. cbn [wStart] in Heq.
  apply Z.eqb_eq in Heq. rewrite <- Heq in Hnz.
  split.
  - apply windowAt_In. split; [exact Hin|]. split; [exact Hnz|].
    revert Heq. generalize (getClosestSunday now). intros end0.
    time_unfold. lia.
  - intros k' w' Hk' Heq' Hin'.
    apply nth_error_windows in Hk'. destruct Hk' as [_ ->].
    apply windowAt_In in Hin'. destruct Hin' as (_ & _ & Hr).
    unfold windowAt in Heq'. cbn [wEnd] in Heq'. apply Z.eqb_eq in Heq'.
    revert Heq' Hr. generalize (getClosestSunday now). intros end0.
    time_unfold. lia.
Qed.

(** An issue closed on Sunday 2022-07-31 at 00:00 UTC is reported in the
    week that starts then, and not in the week before, which ends then. *)
Lemma splitByWeeks_start_inclusive_witness :
  splitByWeeks 5 [startItem] wednesdayNoon =
    Some [mkWeek [startItem] (DateUTC 738366) (DateUTC 738373);
          mkWeek [] (DateUTC 738359) (DateUTC 738366)] /\
  In startItem (wItems (mkWeek [startItem] (DateUTC 738366) (DateUTC 738373))).
Proof.
  destruct (splitByWeeks_start_inclusive [startItem] wednesdayNoon)
    as (weeks & Hrun & Hstart).
  assert (Hw : splitByWeeks 5 [startItem] wednesdayNoon =
               Some [mkWeek [startItem] (DateUTC 738366) (DateUTC 738373);
                     mkWeek [] (DateUTC 738359) (DateUTC 738366)])
    by (vm_compute; reflexivity).
  split; [exact Hw|].
  rewrite Hrun in Hw by (apply Nat.leb_le; vm_compute; reflexivity).
  injection Hw as ->.
  apply (Hstart O _ _ eq_refl); [now left | vm_compute; reflexivity].
Defined.

(** C1, as stated, fails for an item completed at the very instant of the
    first boundary: it passes the first filter, but no window takes it.
    Run on Wednesday 2022-08-10 at noon, an issue closed on Sunday
    2022-08-07 at 00:00 UTC is in no window. *)
Lemma boundary_item_dropped :
  IsDone boundaryItem = true /\
  Done boundaryItem = getClosestSunday wednesdayNoon /\
  splitFuel [boundaryItem] wednesdayNoon = 1%nat /\
  splitByWeeks 1 [boundaryItem] wednesdayNoon =
    Some [mkWeek [] (DateUTC 738366) (DateUTC 738373)].
Proof. repeat split; vm_compute; reflexivity. Qed.

(** C1, amended.  With enough fuel [splitByWeeks] returns windows such that
    every item of the list whose completion time is set (not the zero time)
    and strictly before the first boundary is in the items of exactly one
    window; the windows together hold these items and no others, each as
    often as the list does.  (An item completed at the first boundary
    itself, or later, is in no window.) *)
Theorem splitByWeeks_covers (items : Items) (now : Time) :
  exists weeks,
    (forall fuel, (splitFuel items now <= fuel)%nat ->
       splitByWeeks fuel items now = Some weeks) /\
    Permutation (concat (List.map wItems weeks))
      (List.filter
         (fun it => negb (Equal (Done it) zeroTime)
                    && Before (Done it) (getClosestSunday now))
         items) /\
    (forall it,
       In it items ->
       Equal (Done it) zeroTime = false ->
       Before (Done it) (getClosestSunday now) = true ->
       exists k w,
         nth_error weeks k = Some w /\ In it (wItems w) /\
         forall k' w',
           nth_error weeks k' = Some w' -> In it (wItems w') -> k' = k).
Proof.
  destruct (splitByWeeks_windows items now) as (n & Hrun & Hn).
  set (end0 := getClosestSunday now) in *.
  set (pool := GetOlder (SliceStable lessDoneAt items) end0) in *.
  eexists. split; [exact Hrun|]. split.
  - rewrite map_map. cbn [windowAt wItems].
    rewrite windows_concat.
    unfold pool, GetOlder. rewrite filter_filter_andb.
    rewrite (Permutation_filter_bool _ _ _ (SliceStable_Permutation lessDoneAt items)).
    erewrite filter_ext_in; [reflexivity|].
    intros it Hin. cbv beta.
    destruct (Z.eq_dec (instant (Done it)) 0) as [Hz | Hnz].
    { time_unfold. rewrite Hz. reflexivity. }
    destruct (Z.lt_ge_cases (instant (Done it))
                (instant end0 - weekSpan * Z.of_nat n)) as [Hold | Hnew].
    + exfalso. apply (Nat.lt_irrefl n). apply Hn.
      exists it. split; [exact Hin|]. split; [exact Hnz|]. lia.
    + revert Hnew Hnz. bool_lia.
  - intros it Hin Hnz Hlt.
    apply Z.eqb_neq in Hnz. apply Z.ltb_lt in Hlt. simpl in Hnz.
    set (t := instant (Done it)) in *.
    set (q := (instant end0 - 1 - t) `div` weekSpan).
    assert (Hw : 0 < weekSpan) by reflexivity.
    assert (Hq : 0 <= q) by (apply Z.div_pos; lia).
    assert (Hdm : weekSpan * q <= instant end0 - 1 - t < weekSpan * q + weekSpan).
    { pose proof (Z.div_mod (instant end0 - 1 - t) weekSpan ltac:(lia)) as Hd.
      pose proof (Z.mod_pos_bound (instant end0 - 1 - t) weekSpan Hw) as Hm.
      fold q in Hd. lia. }
    exists (Z.to_nat q), (windowAt end0 pool (Z.to_nat q)).
    split; [|split].
    + apply nth_error_windows. split; [|reflexivity].
      apply Hn. exists it. split; [exact Hin|]. split; [exact Hnz|].
      rewrite Z2Nat.id by exact Hq. fold t. lia.
    + apply windowAt_In. split; [exact Hin|]. split; [exact Hnz|].
      rewrite Z2Nat.id by exact Hq. fold t. lia.
    + intros k' w' Hk' Hin'.
      apply nth_error_windows in Hk'. destruct Hk' as [_ ->].
      apply windowAt_In in Hin'. destruct Hin' as (_ & _ & Hr).
      fold t in Hr.
      assert (Z.of_nat k' = q) by nia.
      lia.
Qed.

(** * Invalid branch patterns in the regular-expression revision *)

Section LegacyFacts.
Context {R : Legacy.RegexpLib}.

Lemma extractBranches_panics (s : Legacy.ReportSection)
    (branches : list Legacy.Branch) (mine pool : Legacy.Items) :
  (exists p, Legacy.extractBranches s branches mine pool = Legacy.Panicked p) <->
  existsb Legacy.branchInvalid branches = true.
Proof.
  revert mine pool.
  induction branches as [|b branches IH]; intros mine pool; simpl.
  - split; [intros [p H]; discriminate | discriminate].
  - unfold Legacy.branchInvalid at 1.
    destruct (Legacy.Compile (TrimSpace (Legacy.bBranch b))) as [re | err]; simpl.
    + destruct (Legacy.ExtractByBranch pool (Legacy.bOrg b) (Legacy.bRepo b) re)
        as [tmp rest].
      apply IH.
    + split; [reflexivity | intros _; eexists; reflexivity].
Qed.

(** A section panics exactly when one of its branch patterns does not
    compile, whatever the items are, and even when there are none. *)
Lemma ExtractAndRender_panics (s : Legacy.ReportSection)
    (items : Legacy.Items) (w : string) :
  (exists p, Legacy.ExtractAndRender s items w = Legacy.Panicked p) <->
  Legacy.sectionInvalid s = true.
Proof.
  unfold Legacy.ExtractAndRender, Legacy.sectionInvalid.
  destruct (Legacy.ExtractByLabels items _) as [tmp1 rest1].
  destruct (Legacy.ExtractByPrefixes rest1 _) as [tmp2 rest2].
  rewrite <- (extractBranches_panics s _ (tmp1 ++ tmp2)%list rest2).
  destruct (Legacy.extractBranches s _ _ _) as [[mine rest] | p].
  - split; intros [p H]; discriminate.
  - split; intros _; eexists; reflexivity.
Qed.

Lemma renderLoop_panics (todo : list Legacy.ReportSection)
    (sections : gmap Z string) (pool : Legacy.Items) :
  (exists p, Legacy.renderLoop todo sections pool = Legacy.Panicked p) <->
  existsb Legacy.sectionInvalid todo = true.
Proof.
  revert sections pool.
  induction todo as [|s todo IH]; intros sections pool; simpl.
  - split; [intros [p H]; discriminate | discriminate].
  - pose proof (ExtractAndRender_panics s pool "") as Hs.
    destruct (Legacy.ExtractAndRender s pool "") as [[rest buf] | p].
    + destruct (Legacy.sectionInvalid s); simpl.
      * exfalso. destruct (proj2 Hs eq_refl) as [p H]. discriminate.
      * apply IH.
    + rewrite (proj1 Hs (ex_intro _ p eq_refl)). simpl.
      split; intros _; [reflexivity | eexists; reflexivity].
Qed.

Lemma renderSections_panics (cfg : Legacy.Config) (week : Legacy.WeeklyItems) :
  (exists p, Legacy.renderSections cfg week = Legacy.Panicked p) <->
  Legacy.configInvalid cfg = true.
Proof.
  unfold Legacy.renderSections, Legacy.configInvalid.
  rewrite <- (renderLoop_panics (Legacy.Sections cfg) ∅ (Legacy.wItems week)).
  destruct (Legacy.renderLoop _ _ _) as [[sections rest] | p].
  - split; intros [p H]; discriminate.
  - split; intros _; eexists; reflexivity.
Qed.

Lemma first_true {A : Type} (f : A -> bool) (l : list A) :
  existsb f l = true ->
  exists pre x post,
    l = (pre ++ x :: post)%list /\ existsb f pre = false /\ f x = true.
Proof.
  induction l as [|y l IH]; simpl; [discriminate|].
  destruct (f y) eqn:E; simpl.
  - intros _. exists [], y, l. now repeat split.
  - intros H. destruct (IH H) as (pre & x & post & -> & Hpre & Hx).
    exists (y :: pre), x, post. simpl. rewrite E. now repeat split.
Qed.

(** Branch rules that compile take their items and hand the rest on. *)
Lemma extractBranches_valid (s : Legacy.ReportSection)
    (branches : list Legacy.Branch) (mine pool : Legacy.Items) :
  existsb Legacy.branchInvalid branches = false ->
  exists later left_,
    Legacy.extractBranches s branches mine pool
      = Legacy.Returned ((mine ++ later)%list, left_).
Proof.
  revert mine pool.
  induction branches as [|b branches IH]; intros mine pool; simpl.
  - intros _. exists [], pool. now rewrite app_nil_r.
  - unfold Legacy.branchInvalid at 1.
    destruct (Legacy.Compile (TrimSpace (Legacy.bBranch b))) as [re | err];
      simpl; [|discriminate].
    intros H.
    destruct (Legacy.ExtractByBranch pool (Legacy.bOrg b) (Legacy.bRepo b) re)
      as [tmp rest].
    destruct (IH (mine ++ tmp)%list rest H) as (later & left_ & ->).
    exists (tmp ++ later)%list, left_. now rewrite <- app_assoc.
Qed.

Lemma extractBranches_app (s : Legacy.ReportSection)
    (bpre rest : list Legacy.Branch) (mine pool : Legacy.Items) :
  Legacy.extractBranches s (bpre ++ rest) mine pool =
  match Legacy.extractBranches s bpre mine pool with
  | Legacy.Returned (mine', pool') => Legacy.extractBranches s rest mine' pool'
  | Legacy.Panicked p => Legacy.Panicked p
  end.
Proof.
  revert mine pool.
  induction bpre as [|b bpre IH]; intros mine pool; simpl; [reflexivity|].
  destruct (Legacy.Compile (TrimSpace (Legacy.bBranch b))) as [re | err];
    [|reflexivity].
  destruct (Legacy.ExtractByBranch pool (Legacy.bOrg b) (Legacy.bRepo b) re)
    as [tmp left_].
  apply IH.
Qed.

(** The panic of a section: it is raised at the first branch rule that
    does not compile, when the label rules, the prefix rules and the
    branch rules before it have taken their items. *)
Lemma ExtractAndRender_first_invalid (s : Legacy.ReportSection)
    (pool : Legacy.Items) (w : string)
    (bpre : list Legacy.Branch) (b : Legacy.Branch) (bpost : list Legacy.Branch)
    (err : string) :
  Legacy.mBranch (Legacy.sMatch s) = (bpre ++ b :: bpost)%list ->
  existsb Legacy.branchInvalid bpre = false ->
  Legacy.Compile (TrimSpace (Legacy.bBranch b)) = inr err ->
  exists later left_,
    Legacy.extractBranches s bpre
      (legacyLabelPart s pool ++ legacyPrefixPart s pool)%list
      (legacyAfterPrefix s pool)
    = Legacy.Returned
        ((legacyLabelPart s pool ++ legacyPrefixPart s pool ++ later)%list, left_) /\
    Legacy.ExtractAndRender s pool w
    = Legacy.Panicked
        (Legacy.mkPanic (Legacy.sName s) b err
           (legacyLabelPart s pool ++ legacyPrefixPart s pool ++ later)%list left_).
Proof.
  intros Hb Hpre Herr.
  unfold Legacy.ExtractAndRender, legacyLabelPart, legacyPrefixPart,
    legacyAfterPrefix.
  destruct (Legacy.ExtractByLabels pool _) as [lab rest1]. cbn [fst snd].
  destruct (Legacy.ExtractByPrefixes rest1 _) as [pre rest2]. cbn [fst snd].
  destruct (extractBranches_valid s bpre (lab ++ pre)%list rest2 Hpre)
    as (later & left_ & Hv).
  exists later, left_. rewrite <- app_assoc in Hv. split.
  - exact Hv.
  - rewrite Hb, extractBranches_app, Hv. cbn [Legacy.extractBranches].
    now rewrite Herr.
Qed.

Lemma renderLoop_app (before rest : list Legacy.ReportSection)
    (sections : gmap Z string) (pool : Legacy.Items) :
  Legacy.renderLoop (before ++ rest) sections pool =
  match Legacy.renderLoop before sections pool with
  | Legacy.Returned (sections', pool') => Legacy.renderLoop rest sections' pool'
  | Legacy.Panicked p => Legacy.Panicked p
  end.
Proof.
  revert sections pool.
  induction before as [|s before IH]; intros sections pool; simpl; [reflexivity|].
  destruct (Legacy.ExtractAndRender s pool "") as [[left_ buf] | p];
    [apply IH | reflexivity].
Qed.

Lemma renderLoop_valid (todo : list Legacy.ReportSection)
    (sections : gmap Z string) (pool : Legacy.Items) :
  existsb Legacy.sectionInvalid todo = false ->
  exists rendered pool',
    Legacy.renderLoop todo sections pool = Legacy.Returned (rendered, pool').
Proof.
  intros Hok.
  destruct (Legacy.renderLoop todo sections pool) as [[rendered pool'] | p] eqn:E.
  - now exists rendered, pool'.
  - rewrite (proj1 (renderLoop_panics todo sections pool) (ex_intro _ p E)) in Hok.
    discriminate.
Qed.

Section LegacyRun.
Context (WriteFile : Legacy.Report -> option string).

(** C6, amended.  When a branch rule of some section has a pattern that
    does not compile, the run panics as soon as there is a window to
    render: it panics in the first window, before any report is written.
    The panic is raised inside the extraction of the first section that
    has such a rule, on the items that the sections before it have left
    over, at the first such rule of the section: by then the label rules
    and the prefix rules of the section, and the branch rules before that
    one, have taken their items.  With no window to render, nothing is
    compiled and the run ends without a failure. *)
Theorem invalid_branch_panics_in_first_window (cfg : Legacy.Config)
    (weeks : list Legacy.WeeklyItems) :
  Legacy.configInvalid cfg = true ->
  match weeks with
  | [] => Legacy.writeReports WriteFile cfg weeks [] = ([], Legacy.Finished)
  | week :: _ =>
      exists before s after bpre b bpost err rendered pool later left_,
        Legacy.Sections cfg = (before ++ s :: after)%list /\
        existsb Legacy.sectionInvalid before = false /\
        Legacy.mBranch (Legacy.sMatch s) = (bpre ++ b :: bpost)%list /\
        existsb Legacy.branchInvalid bpre = false /\
        Legacy.Compile (TrimSpace (Legacy.bBranch b)) = inr err /\
        Legacy.renderLoop before ∅ (Legacy.wItems week)
          = Legacy.Returned (rendered, pool) /\
        Legacy.extractBranches s bpre
          (legacyLabelPart s pool ++ legacyPrefixPart s pool)%list
          (legacyAfterPrefix s pool)
        = Legacy.Returned
            ((legacyLabelPart s pool ++ legacyPrefixPart s pool ++ later)%list,
             left_) /\
        Legacy.writeReports WriteFile cfg weeks [] =
          ([], Legacy.Panic
                 (Legacy.mkPanic (Legacy.sName s) b err
                    (legacyLabelPart s pool ++ legacyPrefixPart s pool ++ later)%list
                    left_))
  end.
Proof.
  intros Hbad. destruct weeks as [|week weeks]; [reflexivity|].
  unfold Legacy.configInvalid in Hbad.
  destruct (first_true _ _ Hbad) as (before & s & after & Hsec & Hbefore & Hs).
  unfold Legacy.sectionInvalid in Hs.
  destruct (first_true _ _ Hs) as (bpre & b & bpost & Hbr & Hbpre & Hb).
  unfold Legacy.branchInvalid in Hb.
  destruct (Legacy.Compile (TrimSpace (Legacy.bBranch b))) as [re | err] eqn:Herr;
    [discriminate|].
  destruct (renderLoop_valid before ∅ (Legacy.wItems week) Hbefore)
    as (rendered & pool & Hloop).
  destruct (ExtractAndRender_first_invalid s pool "" bpre b bpost err Hbr Hbpre Herr)
    as (later & left_ & Hext & Hpanic).
  exists before, s, after, bpre, b, bpost, err, rendered, pool, later, left_.
  repeat (split; [assumption|]).
  cbn [Legacy.writeReports]. unfold Legacy.renderSections.
  rewrite Hsec, renderLoop_app, Hloop. cbn [Legacy.renderLoop].
  now rewrite Hpanic.
Qed.
End LegacyRun.
End LegacyFacts.

(** C6, as stated, fails: the pattern is compiled inside the extraction of
    its section.  With no window the run ends without any failure; with a
    window, the panic comes after the label rule of the section has taken
    the issue. *)
Lemma invalid_branch_not_fail_fast :
  Legacy.configInvalid (R := Legacy.literalRegexp) badConfig = true /\
  Legacy.writeReports (R := Legacy.literalRegexp) (fun _ => None) badConfig [] []
    = ([], Legacy.Finished) /\
  exists p,
    Legacy.writeReports (R := Legacy.literalRegexp) (fun _ => None) badConfig
      [legacyWeek] [] = ([], Legacy.Panic p) /\
    Legacy.pMine p = [legacyIssue].
Proof.
  split; [reflexivity|]. split; [reflexivity|].
  eexists. split; reflexivity.
Qed.

Lemma invalid_branch_panics_in_first_window_witness :
  exists p,
    Legacy.writeReports (R := Legacy.literalRegexp) (fun _ => None) badConfig
      [legacyWeek] [] = ([], Legacy.Panic p).
Proof.
  destruct (invalid_branch_panics_in_first_window (R := Legacy.literalRegexp)
              (fun _ => None) badConfig [legacyWeek] eq_refl)
    as (before & s & after & bpre & b & bpost & err & rendered & pool & later
        & left_ & _ & _ & _ & _ & _ & _ & _ & Hrun).
  eexists. exact Hrun.
Defined.

(** In this revision a branch rule could take an item without a branch:
    the pattern only has to match the empty string. *)
Remark Legacy_IsBranch_empty_branch :
  Legacy.IsBranch (R := Legacy.literalRegexp) legacyIssue "org" "repo" "" = true.
Proof. reflexivity. Qed.

(** Run on the scenario of the specification, on Sunday 2022-08-07. *)
Lemma splitByWeeks_terminates_witness :
  exists weeks,
    splitByWeeks 3 [itemAug01; itemAug03; itemJul20]
      (DateUTC sunday_2022_08_07) = Some weeks.
Proof.
  destruct (splitByWeeks_terminates [itemAug01; itemAug03; itemJul20]
              (DateUTC sunday_2022_08_07)) as (weeks & Hrun & _).
  exists weeks. apply Hrun. apply Nat.leb_le. vm_compute. reflexivity.
Defined.

Lemma splitByWeeks_covers_witness :
  exists weeks,
    splitByWeeks 3 [itemAug01; itemAug03; itemJul20]
      (DateUTC sunday_2022_08_07) = Some weeks /\
    exists k w, nth_error weeks k = Some w /\ In itemJul20 (wItems w).
Proof.
  destruct (splitByWeeks_covers [itemAug01; itemAug03; itemJul20]
              (DateUTC sunday_2022_08_07)) as (weeks & Hrun & _ & Hcov).
  exists weeks. split.
  - apply Hrun. apply Nat.leb_le. vm_compute. reflexivity.
  - destruct (Hcov itemJul20) as (k & w & Hk & Hin & _).
    + right; right; left; reflexivity.
    + vm_compute. reflexivity.
    + vm_compute. reflexivity.
    + exists k, w. split; [exact Hk | exact Hin].
Defined.

(** For a [now] in UTC the first boundary is the last Sunday midnight at or
    before [now]. *)
Lemma getClosestSunday_utc (now : Time) :
  zoneOffset now = 0 ->
  instant (getClosestSunday now) <= instant now
    < instant (getClosestSunday now) + weekSpan.
Proof.
  intros Hutc. unfold getClosestSunday, Weekday.
  set (wd := (localDay now + 1) `mod` 7).
  assert (Hwd : 0 <= wd < 7) by (apply Z.mod_pos_bound; lia).
  assert (Hday : localDay (AddDays now (-1 * wd)) = localDay now - wd).
  { unfold localDay, AddDays. simpl.
    replace (instant now + -1 * wd * nsPerDay + zoneOffset now * nsPerSecond)
      with (instant now + zoneOffset now * nsPerSecond + (- wd) * nsPerDay) by lia.
    rewrite Z.div_add by (unfold nsPerDay, nsPerSecond; lia). lia. }
  rewrite Hday. clearbody wd.
  unfold localDay in *. rewrite Hutc, Z.mul_0_l, Z.add_0_r in *.
  assert (Hn : 0 < nsPerDay) by reflexivity.
  pose proof (Z.div_mod (instant now) nsPerDay ltac:(lia)) as Hd.
  pose proof (Z.mod_pos_bound (instant now) nsPerDay Hn) as Hm.
  set (d := instant now `div` nsPerDay) in *.
  unfold DateUTC, weekSpan. simpl. nia.
Qed.

(** Whatever the fuel, a run that ends returns the windows of
    [splitByWeeks_windows]: its items all have a completion time. *)
Lemma splitByWeeks_items_done (fuel : nat) (items : Items) (now : Time)
    (weeks : Weeks) (w : WeeklyItems) (it : Item) :
  splitByWeeks fuel items now = Some weeks ->
  In w weeks -> In it (wItems w) ->
  In it items /\ instant (Done it) <> 0.
Proof.
  intros Hrun Hw Hit.
  destruct (splitByWeeks_windows items now) as (n & Hn & _).
  specialize (Hn (Nat.max fuel (splitFuel items now)) (Nat.le_max_r _ _)).
  unfold splitByWeeks in Hrun, Hn.
  apply (splitLoop_more_fuel fuel (Nat.max fuel (splitFuel items now)))
    in Hrun; [|apply Nat.le_max_l].
  rewrite Hrun in Hn. injection Hn as ->.
  apply in_map_iff in Hw. destruct Hw as (k & <- & _).
  apply windowAt_In in Hit. tauto.
Qed.

(** * Items that are not done *)

(** C8. An item without a [Status] field, or with a [Status] field that is
    not a text field, or whose text is not "done" up to case, is not done,
    its completion time is the zero time, and neither [GetDone] nor
    [GetOlder] returns it, for any list and any time, so that it is in no
    window of [splitByWeeks].  An item without a text field [Title] has the
    empty title, which is what the prefix rules are matched against.  All
    these functions are total. *)
Theorem not_done_is_excluded {G : GlobMatcher} (it : Item) :
  (Fields it !! "Status" = None \/
   (exists status, Fields it !! "Status" = Some status /\
      (fType status <> FIELD_TEXT \/ ToLower (fText status) <> "done")) ->
   IsDone it = false /\ Done it = zeroTime /\
   (forall items, ~ In it (GetDone items)) /\
   (forall items when, ~ In it (GetOlder items when)) /\
   (forall fuel items now weeks w,
      splitByWeeks fuel items now = Some weeks -> In w weeks ->
      ~ In it (wItems w))) /\
  (Fields it !! "Title" = None \/
   (exists title, Fields it !! "Title" = Some title /\ fType title <> FIELD_TEXT) ->
   Title it = "" /\
   forall prefix, HasPrefix it prefix = Glob (TrimSpace prefix ++ "*")%string "").
Proof.
  split.
  - intros H.
    assert (Hd : IsDone it = false /\ Done it = zeroTime).
    { unfold IsDone, Done.
      destruct H as [-> | (status & -> & H)]; [split; reflexivity|].
      assert (Hf : (fType status =? FIELD_TEXT)
                   && String.eqb "done" (ToLower (fText status)) = false).
      { apply andb_false_iff. destruct H as [H | H].
        - left. now apply Z.eqb_neq.
        - right. apply String.eqb_neq. congruence. }
      rewrite Hf. split; reflexivity. }
    destruct Hd as [Hd Hz]. split; [exact Hd|]. split; [exact Hz|].
    split; [|split].
    + intros items Hin. unfold GetDone in Hin.
      apply SliceStable_In in Hin. apply filter_In in Hin.
      destruct Hin as [_ Hin]. congruence.
    + intros items when Hin. unfold GetOlder in Hin.
      apply filter_In in Hin. destruct Hin as [_ Hin].
      rewrite Hz in Hin. discriminate.
    + intros fuel items now weeks w Hrun Hw Hin.
      destruct (splitByWeeks_items_done _ _ _ _ _ _ Hrun Hw Hin) as [_ Hnz].
      rewrite Hz in Hnz. now apply Hnz.
  - intros H.
    assert (Ht : Title it = "").
    { unfold Title. destruct H as [-> | (title & -> & H)]; [reflexivity|].
      apply Z.eqb_neq in H. now rewrite H. }
    split; [exact Ht|].
    intros prefix. unfold HasPrefix. now rewrite Ht.
Qed.

(** A draft without any field, in a list and in front of a time. *)
Lemma not_done_is_excluded_witness :
  (IsDone draftItem = false /\ Done draftItem = zeroTime /\
   (forall items, ~ In draftItem (GetDone items)) /\
   (forall items when, ~ In draftItem (GetOlder items when)) /\
   (forall fuel items now weeks w,
      splitByWeeks fuel items now = Some weeks -> In w weeks ->
      ~ In draftItem (wItems w))) /\
  (Title draftItem = "" /\
   forall prefix,
     HasPrefix draftItem prefix = Glob (TrimSpace prefix ++ "*")%string "").
Proof.
  split.
  - apply (proj1 (not_done_is_excluded draftItem)). left. reflexivity.
  - apply (proj2 (not_done_is_excluded draftItem)). left. reflexivity.
Defined.

(** On its own, [GetInRange] does not test for the zero time: a range that
    starts at the zero time takes an item that is not done.  [splitByWeeks]
    only gives it lists that went through [GetOlder]. *)
Remark GetInRange_zero_time :
  GetInRange [draftItem] zeroTime (DateUTC 7) = [draftItem].
Proof. reflexivity. Qed.

(** * More on the classification *)

Section ClassifyFacts.
Context {G : GlobMatcher}.

Lemma filter_andb_negb {A : Type} (f g : A -> bool) (l : list A) :
  List.filter (fun x => negb (g x)) (List.filter (fun x => negb (f x)) l) =
  List.filter (fun x => negb (f x || g x)) l.
Proof.
  rewrite filter_filter_andb. apply filter_ext. intros x.
  now rewrite negb_orb.
Qed.

Lemma extractBranches_left (branches : list Branch) (mine pool : Items) :
  snd (List.fold_left extractBranchStep branches (mine, pool)) =
  List.filter
    (fun x => negb (existsb (fun b => IsBranch x (bOrg b) (bRepo b) (bBranch b))
                      branches))
    pool.
Proof.
  revert mine pool.
  induction branches as [|b branches IH]; intros mine pool; simpl.
  - induction pool as [|x pool IHp]; simpl; [reflexivity | now rewrite <- IHp].
  - unfold ExtractByBranch. rewrite partition_as_filter.
    rewrite IH. apply filter_andb_negb.
Qed.

(** X1. What [Extract] leaves over is the list of the items that no rule of
    the section takes, in their input order; what it takes is made of the
    items that some rule of the section takes, each as often as the list
    has it. *)
Theorem Extract_sectionMatch (s : ReportSection) (items : Items) :
  snd (Extract s items) = List.filter (fun x => negb (sectionMatch s x)) items /\
  Permutation (fst (Extract s items)) (List.filter (sectionMatch s) items).
Proof.
  assert (Hleft : snd (Extract s items)
                  = List.filter (fun x => negb (sectionMatch s x)) items).
  { unfold Extract, ExtractByLabels, ExtractByPrefixes.
    rewrite !partition_as_filter.
    rewrite extractBranches_left. cbn [snd].
    rewrite !filter_andb_negb. apply filter_ext. intros x.
    unfold sectionMatch, byLabel, byPrefix, byBranch.
    now rewrite orb_assoc. }
  split; [exact Hleft|].
  apply (Permutation_app_inv_r (snd (Extract s items))).
  rewrite Extract_Permutation. rewrite Hleft.
  symmetry. apply filter_split_Permutation.
Qed.

(** The buckets already there are not touched. *)
Lemma classify_fold_prefix (sections : list ReportSection)
    (buckets : list Items) (pool : Items) (j : nat) :
  (j < length buckets)%nat ->
  nth_error (fst (List.fold_left classifyStep sections (buckets, pool))) j =
  nth_error buckets j.
Proof.
  revert buckets pool.
  induction sections as [|s sections IH]; intros buckets pool Hj; simpl;
    [reflexivity|].
  destruct (Extract s pool) as [mine left_].
  rewrite IH by (rewrite length_app; simpl; lia).
  now apply nth_error_app1.
Qed.

Lemma classify_fold_sections (sections : list ReportSection)
    (buckets : list Items) (pool : Items) :
  snd (List.fold_left classifyStep sections (buckets, pool)) =
    List.filter (fun x => negb (existsb (fun s => sectionMatch s x) sections)) pool /\
  forall i s, nth_error sections i = Some s ->
    exists bucket,
      nth_error (fst (List.fold_left classifyStep sections (buckets, pool)))
        (length buckets + i) = Some bucket /\
      Permutation bucket
        (List.filter
           (fun x => sectionMatch s x
                     && negb (existsb (fun s' => sectionMatch s' x) (firstn i sections)))
           pool).
Proof.
  revert buckets pool.
  induction sections as [|s0 sections IH]; intros buckets pool.
  - split.
    + simpl. induction pool as [|x pool IHp]; simpl; [reflexivity | now rewrite <- IHp].
    + intros [|i] s Hs; discriminate.
  - cbn [List.fold_left classifyStep].
    destruct (Extract_sectionMatch s0 pool) as [Hleft Hmine].
    destruct (Extract s0 pool) as [mine left_]. simpl in Hleft, Hmine. subst left_.
    destruct (IH (buckets ++ [mine])%list
                (List.filter (fun x => negb (sectionMatch s0 x)) pool)) as [IHl IHb].
    split.
    + rewrite IHl. apply filter_andb_negb.
    + intros [|i] s Hs.
      * injection Hs as <-. exists mine. split.
        -- rewrite classify_fold_prefix by (rewrite length_app; simpl; lia).
           rewrite Nat.add_0_r, nth_error_app2, Nat.sub_diag by lia. reflexivity.
        -- rewrite Hmine. erewrite filter_ext; [reflexivity|].
           intros x. simpl. now rewrite andb_true_r.
      * destruct (IHb i s Hs) as (bucket & Hn & Hp).
        exists bucket. split.
        -- rewrite length_app in Hn. simpl in Hn.
           now replace (length buckets + S i)%nat
             with (length buckets + 1 + i)%nat by lia.
        -- rewrite Hp, filter_filter_andb. erewrite filter_ext; [reflexivity|].
           intros x. simpl. rewrite negb_orb.
           destruct (sectionMatch s0 x), (sectionMatch s x); reflexivity.
Qed.

(** X2. First section wins: the bucket of a section holds the items that
    some rule of the section takes and that no section before it takes,
    each as often as the list has it; the unclassified rest is the list of
    the items that no section takes, in their input order. *)
Theorem classify_first_section_wins (sections : list ReportSection) (items : Items) :
  snd (classify sections items) =
    List.filter (fun x => negb (existsb (fun s => sectionMatch s x) sections)) items /\
  forall i s, nth_error sections i = Some s ->
    exists bucket,
      nth_error (fst (classify sections items)) i = Some bucket /\
      Permutation bucket
        (List.filter
           (fun x => sectionMatch s x
                     && negb (existsb (fun s' => sectionMatch s' x) (firstn i sections)))
           items).
Proof.
  unfold classify.
  destruct (classify_fold_sections sections [] items) as [Hl Hb].
  split; [exact Hl | exact Hb].
Qed.
End ClassifyFacts.

Lemma classify_first_section_wins_witness :
  exists bucket,
    nth_error (fst (classify [deploySection; deploySection]
                      [itemAug01; itemAug03])) 1 = Some bucket /\
    Permutation bucket
      (List.filter
         (fun x => sectionMatch deploySection x
                   && negb (existsb (fun s' => sectionMatch s' x)
                              (firstn 1 [deploySection; deploySection])))
         [itemAug01; itemAug03]).
Proof.
  apply (proj2 (classify_first_section_wins [deploySection; deploySection]
                  [itemAug01; itemAug03]) 1%nat deploySection).
  reflexivity.
Defined.

(** * Rendering *)

Lemma string_app_assoc (a b c : string) :
  ((a ++ b) ++ c)%string = (a ++ (b ++ c))%string.
Proof.
  induction a as [|x a IH]; [reflexivity|].
  change (String x ((a ++ b) ++ c)%string = String x (a ++ (b ++ c))%string).
  now rewrite IH.
Qed.

Lemma renderItems_app (items : Items) (a b : string) :
  List.fold_left (fun w item => (w ++ renderItem item)%string) items (a ++ b)%string =
  (a ++ List.fold_left (fun w item => (w ++ renderItem item)%string) items b)%string.
Proof.
  revert b. induction items as [|item items IH]; intros b; simpl; [reflexivity|].
  now rewrite string_app_assoc, IH.
Qed.

(** X3. [Render] only appends to the writer, the text appended does not
    depend on what the writer holds, and a section that is omitted when
    empty appends nothing for an empty list. *)
Theorem Render_appends (s : ReportSection) (items : Items) (w : string) :
  Render s items w = (w ++ Render s items "")%string /\
  (sOmitIfEmpty s = true -> Render s [] w = w).
Proof.
  split.
  - unfold Render. destruct (sOmitIfEmpty s && (length items =? 0)%nat).
    + induction w as [|x w IH]; [reflexivity|].
      change (String x w = String x (w ++ "")%string). now rewrite <- IH.
    + rewrite renderItems_app. reflexivity.
  - intros H. unfold Render. now rewrite H.
Qed.

Lemma Render_appends_witness :
  Render (mkSection "Unclassified Items" 1000 true (mkMatch [] [] [])) [] "# Report"
  = "# Report".
Proof.
  apply (proj2 (Render_appends
                  (mkSection "Unclassified Items" 1000 true (mkMatch [] [] []))
                  [] "# Report")).
  reflexivity.
Defined.

Section RenderFacts.
Context {G : GlobMatcher}.

(** The loop of [render] only writes under the render orders of the
    sections. *)
Lemma renderLoop_other (sections : list ReportSection)
    (rendered : gmap Z string) (pool : Items) (k : Z) :
  (forall s, In s sections -> sRenderOrder s <> k) ->
  fst (List.fold_left renderStep sections (rendered, pool)) !! k = rendered !! k.
Proof.
  revert rendered pool.
  induction sections as [|s sections IH]; intros rendered pool Hk; simpl;
    [reflexivity|].
  unfold ExtractAndRender. destruct (Extract s pool) as [mine left_].
  rewrite IH by (intros s' Hs'; apply Hk; now right).
  apply lookup_insert_ne. apply Hk. now left.
Qed.

Lemma renderLoop_last (sections : list ReportSection)
    (rendered : gmap Z string) (buckets : list Items) (pool : Items)
    (i : nat) (s : ReportSection) :
  nth_error sections i = Some s ->
  (forall j s', (i < j)%nat -> nth_error sections j = Some s' ->
     sRenderOrder s' <> sRenderOrder s) ->
  exists bucket,
    nth_error (fst (List.fold_left classifyStep sections (buckets, pool)))
      (length buckets + i) = Some bucket /\
    fst (List.fold_left renderStep sections (rendered, pool)) !! sRenderOrder s
      = Some (Render s bucket "").
Proof.
  revert rendered buckets pool i.
  induction sections as [|s0 sections IH]; intros rendered buckets pool i Hi Hlast.
  - destruct i; discriminate.
  - cbn [List.fold_left renderStep classifyStep]. unfold ExtractAndRender.
    destruct (Extract s0 pool) as [mine left_].
    destruct i as [|i].
    + injection Hi as ->. exists mine. split.
      * rewrite classify_fold_prefix by (rewrite length_app; simpl; lia).
        rewrite Nat.add_0_r, nth_error_app2, Nat.sub_diag by lia. reflexivity.
      * rewrite renderLoop_other.
        -- apply lookup_insert_eq.
        -- intros s' Hs'. apply In_nth_error in Hs'. destruct Hs' as [j Hj].
           apply (Hlast (S j) s'); [lia | exact Hj].
    + destruct (IH (<[sRenderOrder s0 := Render s0 mine ""]> rendered)
                  (buckets ++ [mine])%list left_ i Hi) as (bucket & Hn & Hr).
      { intros j s' Hj Hs'. apply (Hlast (S j) s'); [lia | exact Hs']. }
      exists bucket. split; [|exact Hr].
      rewrite length_app in Hn. simpl in Hn.
      now replace (length buckets + S i)%nat with (length buckets + 1 + i)%nat by lia.
Qed.

(** What [render] stores under an order: the summary, or else the label
    section, or else the unclassified section, or else what the loop over
    the user sections has stored. *)
Lemma renderSections_lookup (cfg : Config) (week : WeeklyItems) (k : Z) :
  renderSections cfg week !! k =
  if summaryAt cfg k then Some (renderSummary (Summary cfg))
  else if labelsAt cfg k then Some (renderLabels (GetUniqLabels (wItems week)))
  else if uRenderOrder (Unclassified cfg) =? k
  then Some (Render (mkSection (uName (Unclassified cfg))
                       (uRenderOrder (Unclassified cfg))
                       (uOmitIfEmpty (Unclassified cfg)) (mkMatch [] [] []))
               (snd (classify (Sections cfg) (wItems week))) "")
  else fst (List.fold_left renderStep (Sections cfg) (∅, wItems week)) !! k.
Proof.
  unfold renderSections, classify, summaryAt, labelsAt.
  pose proof (renderStep_classifyStep (Sections cfg) ∅ [] (wItems week)) as Hleft.
  destruct (List.fold_left renderStep (Sections cfg) (∅, wItems week))
    as [sections left_] eqn:E.
  simpl in Hleft. subst left_. cbn [fst].
  destruct (sumEnabled (Summary cfg)); cbn [andb].
  - destruct (Z.eqb_spec (sumRenderOrder (Summary cfg)) k) as [-> | Hs];
      [apply lookup_insert_eq|].
    rewrite lookup_insert_ne by exact Hs.
    destruct (lsEnabled (LabelSection cfg)); cbn [andb].
    + destruct (Z.eqb_spec (lsRenderOrder (LabelSection cfg)) k) as [-> | Hl];
        [apply lookup_insert_eq|].
      rewrite lookup_insert_ne by exact Hl.
      destruct (Z.eqb_spec (uRenderOrder (Unclassified cfg)) k) as [-> | Hu];
        [apply lookup_insert_eq | now apply lookup_insert_ne].
    + destruct (Z.eqb_spec (uRenderOrder (Unclassified cfg)) k) as [-> | Hu];
        [apply lookup_insert_eq | now apply lookup_insert_ne].
  - destruct (lsEnabled (LabelSection cfg)); cbn [andb].
    + destruct (Z.eqb_spec (lsRenderOrder (LabelSection cfg)) k) as [-> | Hl];
        [apply lookup_insert_eq|].
      rewrite lookup_insert_ne by exact Hl.
      destruct (Z.eqb_spec (uRenderOrder (Unclassified cfg)) k) as [-> | Hu];
        [apply lookup_insert_eq | now apply lookup_insert_ne].
    + destruct (Z.eqb_spec (uRenderOrder (Unclassified cfg)) k) as [-> | Hu];
        [apply lookup_insert_eq | now apply lookup_insert_ne].
Qed.

(** X4. [render] stores its sections by render order, and what is stored
    later replaces what was stored before under the same order.  The
    summary, when enabled, is under its order; the label section, when
    enabled, is under its order unless the summary has it; the
    unclassified section, rendered from what [classify] leaves over, is
    under its order unless the summary or the label section has it; a user
    section is there, with its bucket, when no later user section, nor the
    unclassified section, nor the label section, nor the summary has its
    order; and nothing is stored under any other number. *)
Theorem renderSections_by_order (cfg : Config) (week : WeeklyItems) :
  (forall k, summaryAt cfg k = true ->
     renderSections cfg week !! k = Some (renderSummary (Summary cfg))) /\
  (forall k, summaryAt cfg k = false -> labelsAt cfg k = true ->
     renderSections cfg week !! k
       = Some (renderLabels (GetUniqLabels (wItems week)))) /\
  (summaryAt cfg (uRenderOrder (Unclassified cfg)) = false ->
   labelsAt cfg (uRenderOrder (Unclassified cfg)) = false ->
   renderSections cfg week !! uRenderOrder (Unclassified cfg) =
     Some (Render (mkSection (uName (Unclassified cfg))
                     (uRenderOrder (Unclassified cfg))
                     (uOmitIfEmpty (Unclassified cfg)) (mkMatch [] [] []))
             (snd (classify (Sections cfg) (wItems week))) "")) /\
  (forall i s,
     nth_error (Sections cfg) i = Some s ->
     summaryAt cfg (sRenderOrder s) = false ->
     labelsAt cfg (sRenderOrder s) = false ->
     sRenderOrder s <> uRenderOrder (Unclassified cfg) ->
     (forall j s', (i < j)%nat -> nth_error (Sections cfg) j = Some s' ->
        sRenderOrder s' <> sRenderOrder s) ->
     exists bucket,
       nth_error (fst (classify (Sections cfg) (wItems week))) i = Some bucket /\
       renderSections cfg week !! sRenderOrder s = Some (Render s bucket "")) /\
  (forall k,
     summaryAt cfg k = false -> labelsAt cfg k = false ->
     k <> uRenderOrder (Unclassified cfg) ->
     (forall s, In s (Sections cfg) -> sRenderOrder s <> k) ->
     renderSections cfg week !! k = None).
Proof.
  split; [|split; [|split; [|split]]].
  - intros k Hs. now rewrite renderSections_lookup, Hs.
  - intros k Hs Hl. now rewrite renderSections_lookup, Hs, Hl.
  - intros Hs Hl. now rewrite renderSections_lookup, Hs, Hl, Z.eqb_refl.
  - intros i s Hi Hs Hl Hu Hlast.
    destruct (renderLoop_last (Sections cfg) ∅ [] (wItems week) i s Hi Hlast)
      as (bucket & Hn & Hr).
    exists bucket. split; [exact Hn|].
    rewrite renderSections_lookup, Hs, Hl.
    destruct (Z.eqb_spec (uRenderOrder (Unclassified cfg)) (sRenderOrder s));
      [congruence | exact Hr].
  - intros k Hs Hl Hu Hsec.
    rewrite renderSections_lookup, Hs, Hl.
    destruct (Z.eqb_spec (uRenderOrder (Unclassified cfg)) k); [congruence|].
    rewrite (renderLoop_other (Sections cfg) ∅ (wItems week) k Hsec).
    apply lookup_empty.
Qed.
End RenderFacts.

(** Two sections with the same render order, and the label section and the
    summary elsewhere: the text of the second section is what the report
    keeps. *)
Lemma renderSections_by_order_witness :
  exists bucket,
    nth_error (fst (classify (Sections twoSectionsConfig)
                      [itemAug01; itemAug03])) 1 = Some bucket /\
    renderSections twoSectionsConfig
      (mkWeek [itemAug01; itemAug03] (DateUTC 738366) (DateUTC 738373)) !! 1
    = Some (Render (mkSection "Second" 1 false (mkMatch [] ["Update"] [])) bucket "").
Proof.
  apply (proj1 (proj2 (proj2 (proj2 (renderSections_by_order twoSectionsConfig
    (mkWeek [itemAug01; itemAug03] (DateUTC 738366) (DateUTC 738373))))))
    1%nat (mkSection "Second" 1 false (mkMatch [] ["Update"] []))).
  - reflexivity.
  - reflexivity.
  - reflexivity.
  - simpl. lia.
  - intros [|[|[|j]]] s' Hj Hs'; try lia; discriminate.
Defined.

(** * Label counts *)

Lemma wrapInt_small (x : Z) : - 2 ^ 63 <= x < 2 ^ 63 -> wrapInt x = x.
Proof.
  intros H. unfold wrapInt.
  rewrite Z.mod_small by lia. lia.
Qed.

Lemma GetUniqLabels_flat (items : Items) (rv : gmap string Z) :
  List.fold_left (fun rv item => List.fold_left countLabel (Labels item) rv) items rv
  = List.fold_left countLabel (concat (List.map Labels items)) rv.
Proof.
  revert rv. induction items as [|item items IH]; intros rv; simpl; [reflexivity|].
  now rewrite IH, fold_left_app.
Qed.

Lemma countLabels_spec (labels : list string) :
  forall (rv : gmap string Z) (bound : Z),
    (forall k, 0 <= default 0 (rv !! k) <= bound) ->
    bound + Z.of_nat (length labels) < 2 ^ 63 ->
    forall k,
      List.fold_left countLabel labels rv !! k =
      if (count_occ string_dec labels k =? 0)%nat then rv !! k
      else Some (default 0 (rv !! k) + Z.of_nat (count_occ string_dec labels k)).
Proof.
  induction labels as [|a labels IH]; intros rv bound Hrv Hb k; [reflexivity|].
  cbn [List.fold_left length] in *.
  assert (Hw : wrapInt (default 0 (rv !! a) + 1) = default 0 (rv !! a) + 1).
  { apply wrapInt_small. specialize (Hrv a). lia. }
  rewrite (IH (countLabel rv a) (bound + 1)).
  - unfold countLabel. rewrite Hw. cbn [count_occ].
    destruct (string_dec a k) as [-> | Hne].
    + rewrite lookup_insert_eq. simpl.
      destruct (count_occ string_dec labels k); simpl; f_equal; lia.
    + rewrite lookup_insert_ne by exact Hne. reflexivity.
  - intros k'. unfold countLabel. rewrite Hw.
    destruct (string_dec a k') as [-> | Hne].
    + rewrite lookup_insert_eq. simpl. specialize (Hrv k'). lia.
    + rewrite lookup_insert_ne by exact Hne. specialize (Hrv k'). lia.
  - lia.
Qed.

(** X5. [GetUniqLabels] maps every label that some item of the list
    carries to the number of times it occurs over the whole list, and has
    no entry for any other label; the counts are exact as long as the list
    carries fewer than 2^63 labels. *)
Theorem GetUniqLabels_counts (items : Items) (label : string) :
  Z.of_nat (length (concat (List.map Labels items))) < 2 ^ 63 ->
  GetUniqLabels items !! label =
    if (count_occ string_dec (concat (List.map Labels items)) label =? 0)%nat
    then None
    else Some (Z.of_nat (count_occ string_dec (concat (List.map Labels items)) label)).
Proof.
  intros Hlen. unfold GetUniqLabels. rewrite GetUniqLabels_flat.
  rewrite (countLabels_spec _ ∅ 0).
  - rewrite lookup_empty. simpl. reflexivity.
  - intros k. rewrite lookup_empty. simpl. lia.
  - lia.
Qed.

(** The scenario of the specification: labels [a, b], [b] and none. *)
Lemma GetUniqLabels_counts_witness :
  GetUniqLabels
    [exampleItem "1" "" "Done" ["a"; "b"] zeroTime "";
     exampleItem "2" "" "Done" ["b"] zeroTime "";
     exampleItem "3" "" "Done" [] zeroTime ""] !! "b" = Some 2.
Proof.
  rewrite (GetUniqLabels_counts
    [exampleItem "1" "" "Done" ["a"; "b"] zeroTime "";
     exampleItem "2" "" "Done" ["b"] zeroTime "";
     exampleItem "3" "" "Done" [] zeroTime ""] "b").
  - reflexivity.
  - simpl. lia.
Defined.

(** * The archive loop *)

Section ArchiveFacts.
Context (archiveItem : string -> option string).

Lemma archiveItems_spec (items : Items) (archived : list string) :
  exists done,
    fst (archiveItems archiveItem items archived) = (archived ++ done)%list /\
    stopsAt archiveItem (List.map ID items) done (snd (archiveItems archiveItem items archived)).
Proof.
  revert archived.
  induction items as [|item items IH]; intros archived; simpl.
  - exists []. rewrite app_nil_r. split; [reflexivity|].
    exists []. repeat split. intros id [].
  - destruct (archiveItem (ID item)) as [err|] eqn:E; simpl.
    + exists []. rewrite app_nil_r. split; [reflexivity|].
      exists (ID item :: List.map ID items). repeat split.
      * intros id [].
      * exists (ID item), (List.map ID items). now split.
    + destruct (IH (archived ++ [ID item])%list) as (done & Hd & rest & Hids & Hok & Herr).
      exists (ID item :: done). split.
      * rewrite Hd, <- app_assoc. reflexivity.
      * exists rest. split; [simpl; now rewrite Hids|]. split; [|exact Herr].
        intros id [<- | Hin]; [exact E | now apply Hok].
Qed.

Lemma archiveFrom_spec (weeks : Weeks) (archived : list string) :
  exists done,
    fst (archiveFrom archiveItem weeks archived) = (archived ++ done)%list /\
    stopsAt archiveItem (List.map ID (concat (List.map wItems weeks))) done
      (snd (archiveFrom archiveItem weeks archived)).
Proof.
  revert archived.
  induction weeks as [|week weeks IH]; intros archived; simpl.
  - exists []. rewrite app_nil_r. split; [reflexivity|].
    exists []. repeat split. intros id [].
  - destruct (archiveItems_spec (wItems week) archived)
      as (done1 & Hd1 & rest1 & Hids1 & Hok1 & Herr1).
    destruct (archiveItems archiveItem (wItems week) archived) as [archived1 err1].
    simpl in Hd1, Herr1. subst archived1.
    rewrite map_app.
    destruct err1 as [e|].
    + simpl. exists done1. split; [reflexivity|].
      destruct Herr1 as (id & rest' & -> & He).
      exists ((id :: rest') ++ List.map ID (concat (List.map wItems weeks)))%list.
      split; [rewrite Hids1; now rewrite <- app_assoc|].
      split; [exact Hok1|].
      exists id, (rest' ++ List.map ID (concat (List.map wItems weeks)))%list.
      now split.
    + subst rest1. rewrite app_nil_r in Hids1.
      destruct (IH (archived ++ done1)%list) as (done2 & Hd2 & rest2 & Hids2 & Hok2 & Herr2).
      exists (done1 ++ done2)%list. split.
      * rewrite Hd2, <- app_assoc. reflexivity.
      * exists rest2. split; [rewrite Hids1, Hids2; now rewrite <- app_assoc|].
        split; [|exact Herr2].
        intros id Hin. apply in_app_or in Hin.
        destruct Hin as [Hin | Hin]; [now apply Hok1 | now apply Hok2].
Qed.

(** X6. [archive] hands the items of the windows to the remote service in
    order, window after window, and stops at the first one that fails:
    the items archived are the ones before it, and the error returned is
    the error of that call.  When no call fails every item of every window
    is archived and no error is returned. *)
Theorem archive_stops_at_first_error (weeks : Weeks) :
  exists rest,
    List.map ID (concat (List.map wItems weeks))
      = (fst (archive archiveItem weeks) ++ rest)%list /\
    (forall id, In id (fst (archive archiveItem weeks)) -> archiveItem id = None) /\
    match snd (archive archiveItem weeks) with
    | None => rest = []
    | Some e => exists id rest', rest = id :: rest' /\ archiveItem id = Some e
    end.
Proof.
  unfold archive.
  destruct (archiveFrom_spec weeks []) as (done & Hd & Hstop).
  simpl in Hd. rewrite Hd. exact Hstop.
Qed.
End ArchiveFacts.

(** * From the windows to the archive *)

(** Whatever the fuel, the windows of a run that ends hold the items with
    a completion time strictly before the first boundary, each as often as
    the list does. *)
Lemma splitByWeeks_items_Permutation (fuel : nat) (items : Items) (now : Time)
    (weeks : Weeks) :
  splitByWeeks fuel items now = Some weeks ->
  Permutation (concat (List.map wItems weeks))
    (List.filter
       (fun it => negb (Equal (Done it) zeroTime)
                  && Before (Done it) (getClosestSunday now))
       items).
Proof.
  intros Hrun.
  destruct (splitByWeeks_windows items now) as (n & Hn & Hlt).
  specialize (Hn (Nat.max fuel (splitFuel items now)) (Nat.le_max_r _ _)).
  unfold splitByWeeks in Hrun, Hn.
  apply (splitLoop_more_fuel fuel (Nat.max fuel (splitFuel items now)))
    in Hrun; [|apply Nat.le_max_l].
  rewrite Hrun in Hn. injection Hn as ->.
  set (end0 := getClosestSunday now) in *.
  rewrite map_map. cbn [windowAt wItems]. rewrite windows_concat.
  unfold GetOlder. rewrite filter_filter_andb.
  rewrite (Permutation_filter_bool _ _ _ (SliceStable_Permutation lessDoneAt items)).
  erewrite filter_ext_in; [reflexivity|].
  intros it Hin. cbv beta.
  destruct (Z.eq_dec (instant (Done it)) 0) as [Hz | Hnz].
  { time_unfold. rewrite Hz. reflexivity. }
  destruct (Z.lt_ge_cases (instant (Done it))
              (instant end0 - weekSpan * Z.of_nat n)) as [Hold | Hnew].
  - exfalso. apply (Nat.lt_irrefl n). apply Hlt.
    exists it. split; [exact Hin|]. split; [exact Hnz|]. lia.
  - revert Hnew Hnz. bool_lia.
Qed.

Lemma Done_set_IsDone (it : Item) :
  instant (Done it) <> 0 -> IsDone it = true /\ Done it = DoneAt it.
Proof.
  unfold Done, IsDone. intros H.
  destruct (Fields it !! "Status") as [status|]; [|now elim H].
  destruct ((fType status =? FIELD_TEXT)
            && String.eqb "done" (ToLower (fText status)));
    [split; reflexivity | now elim H].
Qed.

(** X7. What gets archived has been reported: every identifier that
    [archive] hands over, in a run over the windows of [splitByWeeks], is
    that of an item of the list that is done and was completed strictly
    before the first boundary; and when no call fails, the identifiers
    archived are those of all such items, each as often as the list has
    the item. *)
Theorem archive_reported_items (archiveItem : string -> option string)
    (fuel : nat) (items : Items) (now : Time) (weeks : Weeks) :
  splitByWeeks fuel items now = Some weeks ->
  (forall id, In id (fst (archive archiveItem weeks)) ->
     exists it, In it items /\ ID it = id /\ IsDone it = true /\
       Before (DoneAt it) (getClosestSunday now) = true) /\
  ((forall it, In it items -> archiveItem (ID it) = None) ->
   snd (archive archiveItem weeks) = None /\
   Permutation (fst (archive archiveItem weeks))
     (List.map ID
        (List.filter
           (fun it => negb (Equal (Done it) zeroTime)
                      && Before (Done it) (getClosestSunday now))
           items))).
Proof.
  intros Hrun.
  pose proof (splitByWeeks_items_Permutation _ _ _ _ Hrun) as Hperm.
  destruct (archiveFrom_spec archiveItem weeks []) as (done & Hd & Hstop).
  unfold stopsAt in Hstop. destruct Hstop as (rest & Hids & Hok & Herr).
  change (archiveFrom archiveItem weeks []) with (archive archiveItem weeks) in *.
  simpl in Hd. rewrite Hd. clear Hd.
  assert (Hsub : forall id, In id (List.map ID (concat (List.map wItems weeks))) ->
            exists it, In it items /\ ID it = id /\ IsDone it = true /\
              Before (DoneAt it) (getClosestSunday now) = true).
  { intros id Hin. apply in_map_iff in Hin. destruct Hin as (it & <- & Hin).
    eapply Permutation_in in Hin; [|exact Hperm].
    apply filter_In in Hin. destruct Hin as [Hin Hc].
    apply andb_true_iff in Hc. destruct Hc as [Hnz Hb].
    apply negb_true_iff, Z.eqb_neq in Hnz. simpl in Hnz.
    destruct (Done_set_IsDone it Hnz) as [Hd Heq].
    exists it. rewrite <- Heq. now repeat split. }
  split.
  - intros id Hin. apply Hsub. rewrite Hids. apply in_or_app. now left.
  - intros Hnone.
    assert (Hno : snd (archive archiveItem weeks) = None).
    { destruct (snd (archive archiveItem weeks)) as [e|]; [|reflexivity].
      destruct Herr as (id & rest' & -> & He).
      destruct (Hsub id) as (it & Hin & <- & _).
      - rewrite Hids. apply in_or_app. right. now left.
      - rewrite (Hnone it Hin) in He. discriminate. }
    split; [exact Hno|].
    rewrite Hno in Herr. subst rest. rewrite app_nil_r in Hids.
    rewrite <- Hids. now apply Permutation_map.
Qed.

Lemma archive_reported_items_witness :
  snd (archive (fun _ => None)
         [mkWeek [itemAug01; itemAug03] (DateUTC 738366) (DateUTC 738373);
          mkWeek [] (DateUTC 738359) (DateUTC 738366);
          mkWeek [itemJul20] (DateUTC 738352) (DateUTC 738359)]) = None.
Proof.
  apply (proj2 (archive_reported_items (fun _ => None) 10
                  [itemAug01; itemAug03; itemJul20] (DateUTC sunday_2022_08_07)
                  _ ltac:(vm_compute; reflexivity))).
  intros it _. reflexivity.
Defined.

(** * More on the time queries and on the windows *)

Section KeyedSort.
Context {A : Type} (key : A -> Z).

Let less (a b : A) : bool := key a <? key b.

Lemma insertStable_sorted (x : A) (l : list A) :
  StronglySorted (fun a b => key a <= key b) l ->
  StronglySorted (fun a b => key a <= key b) (insertStable less x l).
Proof.
  induction 1 as [|y l Hs IH Hy]; simpl.
  - constructor; constructor.
  - unfold less at 1. destruct (Z.ltb_spec (key y) (key x)) as [Hlt | Hge].
    + constructor; [exact IH|].
      rewrite List.Forall_forall in *. intros z Hz.
      eapply Permutation_in in Hz; [|apply insertStable_Permutation].
      destruct Hz as [<- | Hz]; [lia | now apply Hy].
    + constructor; [now constructor|].
      constructor; [exact Hge|].
      rewrite List.Forall_forall in *. intros z Hz. specialize (Hy z Hz). lia.
Qed.

Lemma SliceStable_sorted (l : list A) :
  StronglySorted (fun a b => key a <= key b) (SliceStable less l).
Proof.
  induction l as [|x l IH]; simpl; [constructor | now apply insertStable_sorted].
Qed.

Lemma filter_sorted (f : A -> bool) (l : list A) :
  StronglySorted (fun a b => key a <= key b) l ->
  StronglySorted (fun a b => key a <= key b) (List.filter f l).
Proof.
  induction 1 as [|y l Hs IH Hy]; simpl; [constructor|].
  destruct (f y); [|exact IH].
  constructor; [exact IH|].
  rewrite List.Forall_forall in *. intros z Hz.
  apply filter_In in Hz. now apply Hy.
Qed.
End KeyedSort.

(** X8. [GetDone] returns the done items of the list, each as often as
    the list has it, by ascending completion time, and items completed at
    the same instant stay in their input order. *)
Theorem GetDone_sorted_stable (items : Items) :
  Permutation (GetDone items) (List.filter IsDone items) /\
  List.Forall (fun it => IsDone it = true) (GetDone items) /\
  StronglySorted (fun a b => instant (DoneAt a) <= instant (DoneAt b))
    (GetDone items) /\
  forall t,
    List.filter (fun it => instant (DoneAt it) =? t) (GetDone items) =
    List.filter (fun it => instant (DoneAt it) =? t) (List.filter IsDone items).
Proof.
  assert (Hdone : forall it, In it (GetDone items) -> IsDone it = true).
  { intros it Hin. unfold GetDone in Hin. apply SliceStable_In in Hin.
    now apply filter_In in Hin. }
  assert (Heq : forall it, IsDone it = true -> Done it = DoneAt it).
  { intros it. unfold IsDone, Done.
    destruct (Fields it !! "Status") as [status|]; [|discriminate].
    now intros ->. }
  split; [apply SliceStable_Permutation|].
  split; [now apply List.Forall_forall|].
  split.
  - pose proof (SliceStable_sorted (fun it => instant (Done it))
                  (List.filter IsDone items)) as Hs.
    change (StronglySorted (fun a b => instant (Done a) <= instant (Done b))
              (GetDone items)) in Hs.
    revert Hdone. induction Hs as [|x l Hs IH Hx]; intros Hdone; constructor.
    + apply IH. intros it Hin. apply Hdone. now right.
    + rewrite List.Forall_forall in *. intros y Hy. specialize (Hx y Hy).
      rewrite <- (Heq x), <- (Heq y); [exact Hx | |];
        apply Hdone; [now right | now left].
  - intros t. unfold GetDone.
    transitivity
      (List.filter (fun it => instant (Done it) =? t)
         (SliceStable lessDone (List.filter IsDone items))).
    + apply filter_ext_in. intros it Hin. rewrite (Heq it); [reflexivity|].
      now apply Hdone.
    + rewrite SliceStable_stable.
      * apply filter_ext_in. intros it Hin. apply filter_In in Hin.
        now rewrite (Heq it) by tauto.
      * intros x y Hx Hy. apply Z.eqb_eq in Hx, Hy.
        unfold lessDone, Before. apply Z.ltb_ge. lia.
Qed.

(** X9. The bounds of [GetInRange] may come in either order. *)
Theorem GetInRange_swap (items : Items) (a b : Time) :
  GetInRange items a b = GetInRange items b a.
Proof.
  unfold GetInRange, After.
  destruct (Z.ltb_spec (instant b) (instant a)) as [Hba | Hab];
    destruct (Z.ltb_spec (instant a) (instant b)) as [Hab' | Hba'];
    try lia; try reflexivity.
  assert (Heq : instant a = instant b) by lia.
  apply filter_ext. intros it. unfold Before, After, Equal. now rewrite Heq.
Qed.

(** X10. Two cuts by [GetOlder] amount to one cut at the earlier of the
    two times; in particular a second cut at the same time changes
    nothing. *)
Theorem GetOlder_GetOlder (items : Items) (a b : Time) :
  GetOlder (GetOlder items a) b = GetOlder items (if Before a b then a else b).
Proof.
  unfold GetOlder. rewrite filter_filter_andb.
  apply filter_ext. intros it.
  destruct (Before a b) eqn:E; revert E; bool_lia; intros; try discriminate; lia.
Qed.

(** Whatever the fuel, a run that ends returns the windows of
    [splitByWeeks_windows]. *)
Lemma splitByWeeks_canonical (fuel : nat) (items : Items) (now : Time)
    (weeks : Weeks) :
  splitByWeeks fuel items now = Some weeks ->
  exists n,
    weeks = List.map
              (windowAt (getClosestSunday now)
                 (GetOlder (SliceStable lessDoneAt items) (getClosestSunday now)))
              (seq 0 n) /\
    (forall j, (j < n)%nat <->
       exists it, In it items /\ instant (Done it) <> 0 /\
         instant (Done it) <=
           instant (getClosestSunday now) - weekSpan * Z.of_nat j).
Proof.
  intros Hrun.
  destruct (splitByWeeks_windows items now) as (n & Hn & Hlt).
  specialize (Hn (Nat.max fuel (splitFuel items now)) (Nat.le_max_r _ _)).
  unfold splitByWeeks in Hrun, Hn.
  apply (splitLoop_more_fuel fuel (Nat.max fuel (splitFuel items now)))
    in Hrun; [|apply Nat.le_max_l].
  rewrite Hrun in Hn. injection Hn as ->.
  exists n. now split.
Qed.

(** X11. [getClosestSunday] returns midnight UTC of a Sunday: of the last
    Sunday that has begun on the wall clock of [now], in the Location of
    [now].  Applied to its own result it changes nothing. *)
Theorem getClosestSunday_sunday (now : Time) :
  zoneOffset (getClosestSunday now) = 0 /\
  Weekday (getClosestSunday now) = 0 /\
  instant (getClosestSunday now) `mod` nsPerDay = 0 /\
  instant (getClosestSunday now)
    <= instant now + zoneOffset now * nsPerSecond
    < instant (getClosestSunday now) + weekSpan /\
  getClosestSunday (getClosestSunday now) = getClosestSunday now.
Proof.
  assert (Hn : 0 < nsPerDay) by reflexivity.
  assert (Hlocal : forall day, localDay (DateUTC day) = day).
  { intros day. unfold localDay, DateUTC. simpl.
    rewrite Z.add_0_r. apply Z.div_mul. lia. }
  assert (Hidem : forall day, (day + 1) `mod` 7 = 0 ->
            getClosestSunday (DateUTC day) = DateUTC day).
  { intros day Hday. unfold getClosestSunday, Weekday.
    rewrite Hlocal, Hday. change (-1 * 0) with 0.
    now rewrite AddDays_0, Hlocal. }
  split; [reflexivity|].
  destruct (getClosestSunday_is_sunday now) as (day & Heq & Hday).
  split; [rewrite Heq; unfold Weekday; now rewrite Hlocal|].
  split; [rewrite Heq; unfold DateUTC; simpl; now apply Z.mod_mul; lia|].
  split; [|rewrite Heq; now apply Hidem].
  clear day Heq Hday.
  unfold getClosestSunday, Weekday.
  set (wd := (localDay now + 1) `mod` 7).
  assert (Hwd : 0 <= wd < 7) by (apply Z.mod_pos_bound; lia).
  assert (Hday : localDay (AddDays now (-1 * wd)) = localDay now - wd).
  { unfold localDay, AddDays. simpl.
    replace (instant now + -1 * wd * nsPerDay + zoneOffset now * nsPerSecond)
      with (instant now + zoneOffset now * nsPerSecond + (- wd) * nsPerDay) by lia.
    rewrite Z.div_add by lia. lia. }
  rewrite Hday. clearbody wd. unfold localDay in *.
  set (wall := instant now + zoneOffset now * nsPerSecond) in *.
  pose proof (Z.div_mod wall nsPerDay ltac:(lia)) as Hd.
  pose proof (Z.mod_pos_bound wall nsPerDay Hn) as Hm.
  set (d := wall `div` nsPerDay) in *.
  unfold DateUTC, weekSpan. simpl. nia.
Qed.

(** X12. For [now] in UTC or in another Location with a fixed offset
    (the Locations that [Time] models; daylight-saving transitions are not
    covered): every window starts and ends at midnight UTC of a Sunday,
    lasts seven days, and ends at the first boundary or before it. *)
Theorem windows_on_sundays (fuel : nat) (items : Items) (now : Time)
    (weeks : Weeks) (w : WeeklyItems) :
  splitByWeeks fuel items now = Some weeks -> In w weeks ->
  Weekday (wStart w) = 0 /\ Weekday (wEnd w) = 0 /\
  zoneOffset (wStart w) = 0 /\ zoneOffset (wEnd w) = 0 /\
  instant (wStart w) `mod` nsPerDay = 0 /\ instant (wEnd w) `mod` nsPerDay = 0 /\
  instant (wEnd w) = instant (wStart w) + weekSpan /\
  instant (wEnd w) <= instant (getClosestSunday now).
Proof.
  intros Hrun Hw.
  destruct (splitByWeeks_canonical _ _ _ _ Hrun) as (n & -> & _).
  apply in_map_iff in Hw. destruct Hw as (k & <- & _).
  destruct (getClosestSunday_is_sunday now) as (day & -> & Hday).
  assert (Hn : 0 < nsPerDay) by reflexivity.
  assert (Hsun : forall m, Weekday (AddDays (DateUTC day) (-7 * m)) = 0
                           /\ instant (AddDays (DateUTC day) (-7 * m)) `mod` nsPerDay = 0).
  { intros m. unfold Weekday, localDay, AddDays, DateUTC. simpl.
    replace (day * nsPerDay + -7 * m * nsPerDay) with ((day - 7 * m) * nsPerDay) by lia.
    rewrite Z.add_0_r, Z.div_mul, Z.mod_mul by lia.
    split; [|reflexivity].
    replace (day - 7 * m + 1) with (day + 1 + (- m) * 7) by lia.
    now rewrite Z.mod_add by lia. }
  unfold windowAt. cbn [wStart wEnd].
  destruct (Hsun (Z.of_nat k + 1)) as [Hs1 Hs2].
  destruct (Hsun (Z.of_nat k)) as [He1 He2].
  repeat split; try assumption; try reflexivity;
    unfold AddDays, DateUTC, weekSpan; simpl; lia.
Qed.

Lemma windows_on_sundays_witness :
  Weekday (DateUTC 738366) = 0.
Proof.
  apply (windows_on_sundays 10 [itemAug01; itemAug03; itemJul20]
           (DateUTC sunday_2022_08_07) _
           (mkWeek [itemAug01; itemAug03] (DateUTC 738366) (DateUTC 738373))
           ltac:(vm_compute; reflexivity)).
  now left.
Defined.

(** X13. A window holds the items of the list that have a completion time
    from its start, included, to its end, excluded, in the order of the
    stable sort of the list by [DoneAt]: by ascending completion time,
    items completed at the same instant in their input order. *)
Theorem window_items_in_order (fuel : nat) (items : Items) (now : Time)
    (weeks : Weeks) (w : WeeklyItems) :
  splitByWeeks fuel items now = Some weeks -> In w weeks ->
  wItems w =
    List.filter
      (fun it => negb (Equal (Done it) zeroTime)
                 && (instant (wStart w) <=? instant (Done it))
                 && (instant (Done it) <? instant (wEnd w)))
      (SliceStable lessDoneAt items) /\
  StronglySorted (fun a b => instant (DoneAt a) <= instant (DoneAt b)) (wItems w) /\
  forall t,
    List.filter (fun it => instant (DoneAt it) =? t) (wItems w) =
    List.filter
      (fun it => negb (Equal (Done it) zeroTime)
                 && (instant (wStart w) <=? instant (Done it))
                 && (instant (Done it) <? instant (wEnd w)))
      (List.filter (fun it => instant (DoneAt it) =? t) items).
Proof.
  intros Hrun Hw.
  destruct (splitByWeeks_canonical _ _ _ _ Hrun) as (n & -> & _).
  apply in_map_iff in Hw. destruct Hw as (k & <- & _).
  set (end0 := getClosestSunday now).
  assert (Hitems :
    wItems (windowAt end0 (GetOlder (SliceStable lessDoneAt items) end0) k) =
    List.filter
      (fun it => negb (Equal (Done it) zeroTime)
                 && (instant (wStart (windowAt end0
                        (GetOlder (SliceStable lessDoneAt items) end0) k))
                     <=? instant (Done it))
                 && (instant (Done it)
                     <? instant (wEnd (windowAt end0
                          (GetOlder (SliceStable lessDoneAt items) end0) k))))
      (SliceStable lessDoneAt items)).
  { unfold windowAt. cbn [wItems wStart wEnd].
    unfold GetOlder. rewrite filter_filter_andb.
    apply filter_ext. intros it. unfold inWindow. bool_lia. }
  split; [exact Hitems|]. split.
  - rewrite Hitems. apply filter_sorted.
    apply (SliceStable_sorted (fun it => instant (DoneAt it))).
  - intros t. rewrite Hitems.
    rewrite filter_filter_andb.
    erewrite filter_ext by (intros it; apply andb_comm).
    rewrite <- filter_filter_andb.
    rewrite SliceStable_stable; [reflexivity|].
    intros x y Hx Hy. apply Z.eqb_eq in Hx, Hy.
    unfold lessDoneAt, Before. apply Z.ltb_ge. lia.
Qed.

Lemma window_items_in_order_witness :
  StronglySorted (fun a b => instant (DoneAt a) <= instant (DoneAt b))
    [itemAug01; itemAug03].
Proof.
  apply (window_items_in_order 10 [itemAug03; itemJul20; itemAug01]
           (DateUTC sunday_2022_08_07) _
           (mkWeek [itemAug01; itemAug03] (DateUTC 738366) (DateUTC 738373))
           ltac:(vm_compute; reflexivity)).
  now left.
Defined.

(** X14. There is no window at all exactly when no item of the list has a
    completion time at or before the first boundary; and when there are
    windows, the newest one ends at the first boundary. *)
Theorem no_window_iff (fuel : nat) (items : Items) (now : Time) (weeks : Weeks) :
  splitByWeeks fuel items now = Some weeks ->
  (weeks = [] <->
   forall it, In it items ->
     Equal (Done it) zeroTime = true \/ After (Done it) (getClosestSunday now) = true) /\
  (forall w, nth_error weeks 0 = Some w -> wEnd w = getClosestSunday now).
Proof.
  intros Hrun.
  destruct (splitByWeeks_canonical _ _ _ _ Hrun) as (n & -> & Hn).
  split.
  - split.
    + intros Hnil it Hin.
      destruct n as [|n]; [|discriminate].
      destruct (Z.eq_dec (instant (Done it)) 0) as [Hz | Hnz];
        [left; now apply Z.eqb_eq|].
      right. apply Z.ltb_lt.
      destruct (Z.lt_ge_cases (instant (getClosestSunday now)) (instant (Done it)))
        as [Hlt | Hge]; [exact Hlt|].
      exfalso. apply (Nat.lt_irrefl 0). apply Hn.
      exists it. split; [exact Hin|]. split; [exact Hnz|].
      change (Z.of_nat 0) with 0. lia.
    + intros Hall. destruct n as [|n]; [reflexivity|].
      exfalso. destruct (proj1 (Hn O) ltac:(lia)) as (it & Hin & Hnz & Hle).
      change (Z.of_nat 0) with 0 in Hle.
      destruct (Hall it Hin) as [H | H].
      * apply Z.eqb_eq in H. simpl in H. contradiction.
      * apply Z.ltb_lt in H. lia.
  - intros w Hw. apply nth_error_windows in Hw. destruct Hw as [_ ->].
    unfold windowAt. cbn [wEnd]. change (-7 * Z.of_nat 0) with 0.
    apply AddDays_0.
Qed.

Lemma no_window_iff_witness :
  splitByWeeks 0 [draftItem; boundaryItem] (DateUTC 738370) = Some [] /\
  (@nil WeeklyItems = [] <->
   forall it, In it [draftItem; boundaryItem] ->
     Equal (Done it) zeroTime = true
     \/ After (Done it) (getClosestSunday (DateUTC 738370)) = true).
Proof.
  split; [vm_compute; reflexivity|].
  apply (no_window_iff 0 [draftItem; boundaryItem] (DateUTC 738370) []).
  vm_compute. reflexivity.
Defined.

(** * The normalisation of the GraphQL records *)

Module GqlFacts.
Import Gql.

Lemma setField_same (rv : Item) (f : Field) :
  ID (setField rv f) = ID rv /\ Archived (setField rv f) = Archived rv /\
  Labels (setField rv f) = Labels rv /\ DoneAt (setField rv f) = DoneAt rv /\
  ItemType (setField rv f) = ItemType rv /\ Number (setField rv f) = Number rv /\
  URL (setField rv f) = URL rv /\ Repo (setField rv f) = Repo rv.
Proof. unfold setField. destruct (fType f =? FIELD_EMPTY); now repeat split. Qed.

Lemma setField_lookup (rv : Item) (f : Field) (k : string) (f' : Field) :
  Fields (setField rv f) !! k = Some f' ->
  Fields rv !! k = Some f' \/ (f' = f /\ fName f = k /\ fType f <> FIELD_EMPTY).
Proof.
  unfold setField. destruct (Z.eqb_spec (fType f) FIELD_EMPTY) as [He | Hne];
    [now left|].
  simpl. destruct (string_dec (fName f) k) as [<- | Hk].
  - rewrite lookup_insert_eq. intros [= <-]. now right.
  - rewrite lookup_insert_ne by exact Hk. now left.
Qed.

Lemma cleanNode_same (rv : Item) (n : FieldValueNode) :
  ID (cleanNode rv n) = ID rv /\ Archived (cleanNode rv n) = Archived rv /\
  Labels (cleanNode rv n) = (Labels rv ++ List.map lName (NodeLabels n))%list /\
  DoneAt (cleanNode rv n) = DoneAt rv /\
  ItemType (cleanNode rv n) = ItemType rv /\ Number (cleanNode rv n) = Number rv /\
  URL (cleanNode rv n) = URL rv /\ Repo (cleanNode rv n) = Repo rv.
Proof.
  unfold cleanNode. simpl.
  repeat match goal with
    | |- context [setField ?r ?f] =>
        let H := fresh in
        pose proof (setField_same r f) as H;
        destruct H as (-> & -> & -> & -> & -> & -> & -> & ->)
    end.
  now repeat split.
Qed.

Lemma cleanNode_lookup (rv : Item) (n : FieldValueNode) (k : string) (f : Field) :
  Fields (cleanNode rv n) !! k = Some f ->
  Fields rv !! k = Some f \/
  (In f (nodeFields n) /\ fName f = k /\ fType f <> FIELD_EMPTY).
Proof.
  unfold cleanNode, nodeFields. simpl. intros H.
  repeat match type of H with
    | Fields (setField _ _) !! _ = Some _ =>
        apply setField_lookup in H;
        destruct H as [H | (-> & Hk & Hne)];
        [|right; split; [simpl; tauto | now split]]
    end.
  now left.
Qed.

Lemma cleanNodes_spec (nodes : list FieldValueNode) (rv : Item) :
  ID (List.fold_left cleanNode nodes rv) = ID rv /\
  Archived (List.fold_left cleanNode nodes rv) = Archived rv /\
  Labels (List.fold_left cleanNode nodes rv) =
    (Labels rv ++ concat (List.map (fun n => List.map lName (NodeLabels n)) nodes))%list /\
  DoneAt (List.fold_left cleanNode nodes rv) = DoneAt rv /\
  ItemType (List.fold_left cleanNode nodes rv) = ItemType rv /\
  Number (List.fold_left cleanNode nodes rv) = Number rv /\
  URL (List.fold_left cleanNode nodes rv) = URL rv /\
  Repo (List.fold_left cleanNode nodes rv) = Repo rv /\
  forall k f,
    Fields (List.fold_left cleanNode nodes rv) !! k = Some f ->
    Fields rv !! k = Some f \/
    (exists n, In n nodes /\ In f (nodeFields n)) /\
    fName f = k /\ fType f <> FIELD_EMPTY.
Proof.
  revert rv. induction nodes as [|n nodes IH]; intros rv; simpl.
  - rewrite app_nil_r. repeat split. intros k f H. now left.
  - destruct (IH (cleanNode rv n)) as (H1 & H2 & H3 & H4 & H5 & H6 & H7 & H8 & H9).
    destruct (cleanNode_same rv n) as (E1 & E2 & E3 & E4 & E5 & E6 & E7 & E8).
    rewrite H1, H2, H3, H4, H5, H6, H7, H8, E1, E2, E3, E4, E5, E6, E7, E8.
    rewrite <- app_assoc.
    repeat split.
    intros k f H. apply H9 in H.
    destruct H as [H | ((n' & Hn' & Hf) & Hk & Hne)].
    + apply cleanNode_lookup in H. destruct H as [H | (Hf & Hk & Hne)];
        [now left|].
      right. split; [exists n; split; [now left | exact Hf] | now split].
    + right. split; [exists n'; split; [now right | exact Hf] | now split].
Qed.

(** X15. The completion time that [ToClean] gives an item is the merge
    date of the pull request, or else its close date, or else the close
    date of the issue, or else the zero time; the branch is the base
    branch of the pull request when it is merged or closed, and empty
    otherwise. *)
Theorem ToClean_completion (g : GqlItem) :
  DoneAt (ToClean g) =
    match prMergedAt (gPR g), prClosedAt (gPR g), issClosedAt (gIssue g) with
    | Some t, _, _ => t
    | None, Some t, _ => t
    | None, None, Some t => t
    | None, None, None => zeroTime
    end /\
  rBranch (Repo (ToClean g)) =
    match prMergedAt (gPR g), prClosedAt (gPR g) with
    | None, None => ""
    | _, _ => prBaseRefName (gPR g)
    end.
Proof.
  unfold ToClean.
  match goal with
  | |- context [List.fold_left cleanNode ?nodes ?rv] =>
      destruct (cleanNodes_spec nodes rv) as (_ & _ & _ & -> & _ & _ & _ & -> & _)
  end.
  unfold cleanPR, cleanIssue, withPR.
  destruct (prMergedAt (gPR g)), (prClosedAt (gPR g)), (issClosedAt (gIssue g));
    split; reflexivity.
Qed.

(** X16. The labels of the item are the labels of all its field values,
    in order. *)
Theorem ToClean_labels (g : GqlItem) :
  Labels (ToClean g) =
  concat (List.map (fun n => List.map lName (NodeLabels n)) (FieldValues g)).
Proof.
  unfold ToClean.
  match goal with
  | |- context [List.fold_left cleanNode ?nodes ?rv] =>
      destruct (cleanNodes_spec nodes rv) as (_ & _ & -> & _)
  end.
  unfold cleanPR, cleanIssue, withPR.
  destruct (prMergedAt (gPR g)), (prClosedAt (gPR g)), (issClosedAt (gIssue g));
    reflexivity.
Qed.

(** X17. Every field of the item is stored under its own name, is not an
    empty field, and is one of the values of the record. *)
Theorem ToClean_fields_named (g : GqlItem) (k : string) (f : Field) :
  Fields (ToClean g) !! k = Some f ->
  fName f = k /\ fType f <> FIELD_EMPTY /\
  exists n, In n (FieldValues g) /\ In f (nodeFields n).
Proof.
  unfold ToClean. intros H.
  match type of H with
  | context [List.fold_left cleanNode ?nodes ?rv] =>
      destruct (cleanNodes_spec nodes rv) as (_ & _ & _ & _ & _ & _ & _ & _ & Hf)
  end.
  apply Hf in H. destruct H as [H | (Hn & Hk & Hne)].
  - exfalso. revert H. unfold cleanPR, cleanIssue, withPR.
    destruct (prMergedAt (gPR g)), (prClosedAt (gPR g)), (issClosedAt (gIssue g));
      simpl; rewrite lookup_empty; discriminate.
  - now repeat split.
Qed.

(** X18. An item that is neither a closed issue nor a merged or closed pull
    request has no completion time: whatever its status says, it is in no
    window of [splitByWeeks]. *)
Theorem ToClean_open_not_reported (g : GqlItem) :
  prMergedAt (gPR g) = None -> prClosedAt (gPR g) = None ->
  issClosedAt (gIssue g) = None ->
  Done (ToClean g) = zeroTime /\
  forall fuel items now weeks w,
    splitByWeeks fuel items now = Some weeks -> In w weeks ->
    ~ In (ToClean g) (wItems w).
Proof.
  intros Hm Hc Hi.
  assert (Hd : DoneAt (ToClean g) = zeroTime).
  { unfold ToClean.
    match goal with
    | |- context [List.fold_left cleanNode ?nodes ?rv] =>
        destruct (cleanNodes_spec nodes rv) as (_ & _ & _ & -> & _)
    end.
    unfold cleanPR, cleanIssue. now rewrite Hm, Hc, Hi. }
  assert (Hz : Done (ToClean g) = zeroTime).
  { unfold Done. rewrite Hd.
    destruct (Fields (ToClean g) !! "Status") as [status|]; [|reflexivity].
    now destruct ((fType status =? FIELD_TEXT)
                  && String.eqb "done" (ToLower (fText status))). }
  split; [exact Hz|].
  intros fuel items now weeks w Hrun Hw Hin.
  destruct (splitByWeeks_items_done _ _ _ _ _ _ Hrun Hw Hin) as [_ Hnz].
  rewrite Hz in Hnz. now apply Hnz.
Qed.
End GqlFacts.

(** The open issue of the example: its status reads "Done", and yet it has
    no completion time. *)
Lemma ToClean_open_not_reported_witness :
  IsDone (Gql.ToClean gqlOpenIssue) = true /\
  Done (Gql.ToClean gqlOpenIssue) = zeroTime.
Proof.
  split; [reflexivity|].
  apply (GqlFacts.ToClean_open_not_reported gqlOpenIssue); reflexivity.
Defined.

Lemma ToClean_fields_named_witness :
  fName (mkField FIELD_TEXT "Status" zeroTime 0 "Done" 0 "" zeroTime "") = "Status" /\
  fType (mkField FIELD_TEXT "Status" zeroTime 0 "Done" 0 "" zeroTime "") <> FIELD_EMPTY /\
  exists n, In n (Gql.FieldValues gqlOpenIssue) /\
    In (mkField FIELD_TEXT "Status" zeroTime 0 "Done" 0 "" zeroTime "")
       (Gql.nodeFields n).
Proof.
  apply (GqlFacts.ToClean_fields_named gqlOpenIssue "Status").
  reflexivity.
Defined.

(** X19. An item that is not a merged or closed pull request has no
    branch, and no branch rule takes it, whatever the patterns. *)
Theorem ToClean_issue_no_branch {G : GlobMatcher} (g : Gql.GqlItem)
    (org repo branch : string) :
  Gql.prMergedAt (Gql.gPR g) = None -> Gql.prClosedAt (Gql.gPR g) = None ->
  rBranch (Repo (Gql.ToClean g)) = "" /\
  IsBranch (Gql.ToClean g) org repo branch = false.
Proof.
  intros Hm Hc.
  assert (Hb : rBranch (Repo (Gql.ToClean g)) = "").
  { unfold Gql.ToClean.
    match goal with
    | |- context [List.fold_left Gql.cleanNode ?nodes ?rv] =>
        destruct (GqlFacts.cleanNodes_spec nodes rv)
          as (_ & _ & _ & _ & _ & _ & _ & -> & _)
    end.
    unfold Gql.cleanPR, Gql.cleanIssue. rewrite Hm, Hc.
    now destruct (Gql.issClosedAt (Gql.gIssue g)). }
  split; [exact Hb|]. apply IsBranch_empty. now right.
Qed.

Lemma ToClean_issue_no_branch_witness :
  rBranch (Repo (Gql.ToClean gqlOpenIssue)) = "" /\
  IsBranch (Gql.ToClean gqlOpenIssue) "*" "*" "*" = false.
Proof.
  apply (ToClean_issue_no_branch gqlOpenIssue "*" "*" "*"); reflexivity.
Defined.

(** X20. The duration of an iteration is its number of days times
    twenty-four hours, in nanoseconds, as long as the iteration lasts
    at most 106751 days; beyond, the 64-bit product wraps around. *)
Theorem IterationGet_duration (v : Gql.FieldIterationValue)
    (f : Gql.FieldCommon) (start : Time) :
  Gql.ivField v = Some f -> Gql.ivStartDate v = Some start ->
  -106751 <= Gql.ivDuration v <= 106751 ->
  fType (Gql.IterationGet v) = FIELD_ITERATION /\
  fName (Gql.IterationGet v) = Gql.Name f /\
  fStartDate (Gql.IterationGet v) = start /\
  fDuration (Gql.IterationGet v) = Gql.ivDuration v * nsPerDay.
Proof.
  intros Hf Hs Hd. unfold Gql.IterationGet. rewrite Hf, Hs. simpl.
  repeat split.
  rewrite wrapInt_small; unfold nsPerDay, nsPerSecond; lia.
Qed.

Lemma IterationGet_duration_witness :
  fDuration (Gql.IterationGet
               (Gql.mkIterationValue (Some (Gql.mkFieldCommon "Iteration")) 14
                  "random id" (Some (DateUTC 738371)) "title"))
  = 14 * nsPerDay.
Proof.
  apply (IterationGet_duration
           (Gql.mkIterationValue (Some (Gql.mkFieldCommon "Iteration")) 14
              "random id" (Some (DateUTC 738371)) "title")
           (Gql.mkFieldCommon "Iteration") (DateUTC 738371));
    [reflexivity | reflexivity | simpl; lia].
Defined.

(** * More on the regular-expression revision *)

Section LegacyMore.
Context {R : Legacy.RegexpLib} (WriteFile : Legacy.Report -> option string).

Lemma renderSections_valid (cfg : Legacy.Config) (week : Legacy.WeeklyItems) :
  Legacy.configInvalid cfg = false ->
  exists data, Legacy.renderSections cfg week = Legacy.Returned data.
Proof.
  intros Hok.
  destruct (Legacy.renderSections cfg week) as [data | p] eqn:E.
  - now exists data.
  - rewrite (proj1 (renderSections_panics cfg week) (ex_intro _ p E)) in Hok.
    discriminate.
Qed.

Lemma reports_valid (cfg : Legacy.Config) (weeks : list Legacy.WeeklyItems) :
  Legacy.configInvalid cfg = false ->
  exists reports, Forall2 (reportOf cfg) weeks reports.
Proof.
  intros Hok. induction weeks as [|week weeks [reports IH]].
  - exists []. constructor.
  - destruct (renderSections_valid cfg week Hok) as [data E].
    exists (Legacy.mkReport (Legacy.wStart week) (Legacy.wEnd week) data :: reports).
    constructor; [|exact IH]. now repeat split.
Qed.

Lemma writeReports_valid (cfg : Legacy.Config) (weeks : list Legacy.WeeklyItems)
    (written : list Legacy.Report) :
  Legacy.configInvalid cfg = false ->
  exists reports,
    Forall2 (reportOf cfg) weeks reports /\
    ((Forall (fun r => WriteFile r = None) reports /\
      Legacy.writeReports WriteFile cfg weeks written
        = ((written ++ reports)%list, Legacy.Finished)) \/
     (exists done r rest err,
        reports = (done ++ r :: rest)%list /\
        Forall (fun r => WriteFile r = None) done /\
        WriteFile r = Some err /\
        Legacy.writeReports WriteFile cfg weeks written
          = ((written ++ done)%list, Legacy.WriteFailed err))).
Proof.
  intros Hok. revert written.
  induction weeks as [|week weeks IH]; intros written.
  - exists []. split; [constructor|]. left. split; [constructor|].
    cbn [Legacy.writeReports]. now rewrite app_nil_r.
  - destruct (renderSections_valid cfg week Hok) as [data E].
    set (report := Legacy.mkReport (Legacy.wStart week) (Legacy.wEnd week) data).
    assert (Hrep : reportOf cfg week report) by now repeat split.
    cbn [Legacy.writeReports]. rewrite E. fold report.
    destruct (WriteFile report) as [err|] eqn:Ew.
    + destruct (reports_valid cfg weeks Hok) as [reports Hall].
      exists (report :: reports). split; [now constructor|].
      right. exists [], report, reports, err.
      rewrite app_nil_r. repeat split; [constructor | exact Ew].
    + destruct (IH (written ++ [report])%list)
        as (reports & Hall & [[Hw Hrun] | (done & r & rest & err & -> & Hw & Hr & Hrun)]).
      * exists (report :: reports). split; [now constructor|].
        left. split; [now constructor|].
        rewrite Hrun, <- app_assoc. reflexivity.
      * exists (report :: done ++ r :: rest)%list. split; [now constructor|].
        right. exists (report :: done), r, rest, err.
        repeat split; [now constructor | exact Hr |].
        rewrite Hrun, <- app_assoc. reflexivity.
Qed.

(** X21. When every branch pattern of every section compiles, [render]
    gives a report for every window and the loop over the windows never
    panics.  It writes the reports in the order of the windows, each under
    the bounds of its window, and ends in one of two ways: every write
    succeeded and every report is written; or it stops at the first report
    whose write fails, with the error of that write, the reports before it
    written and the ones after it not. *)
Theorem valid_config_writes_all (cfg : Legacy.Config)
    (weeks : list Legacy.WeeklyItems) :
  Legacy.configInvalid cfg = false ->
  exists reports,
    Forall2 (reportOf cfg) weeks reports /\
    ((Forall (fun r => WriteFile r = None) reports /\
      Legacy.writeReports WriteFile cfg weeks [] = (reports, Legacy.Finished)) \/
     (exists done r rest err,
        reports = (done ++ r :: rest)%list /\
        Forall (fun r => WriteFile r = None) done /\
        WriteFile r = Some err /\
        Legacy.writeReports WriteFile cfg weeks []
          = (done, Legacy.WriteFailed err))).
Proof.
  intros Hok. exact (writeReports_valid cfg weeks [] Hok).
Qed.
End LegacyMore.

(** Two windows and a disk that takes one file only: the first report is
    written, the second is not, and the run ends with the error. *)
Lemma valid_config_writes_all_witness :
  exists reports,
    Forall2 (reportOf (R := Legacy.literalRegexp) goodConfig)
      [legacyWeek; laterLegacyWeek] reports /\
    ((Forall (fun r => oneFileOnly r = None) reports /\
      Legacy.writeReports (R := Legacy.literalRegexp) oneFileOnly goodConfig
        [legacyWeek; laterLegacyWeek] [] = (reports, Legacy.Finished)) \/
     (exists done r rest err,
        reports = (done ++ r :: rest)%list /\
        Forall (fun r => oneFileOnly r = None) done /\
        oneFileOnly r = Some err /\
        Legacy.writeReports (R := Legacy.literalRegexp) oneFileOnly goodConfig
          [legacyWeek; laterLegacyWeek] [] = (done, Legacy.WriteFailed err))).
Proof.
  apply (valid_config_writes_all (R := Legacy.literalRegexp) oneFileOnly
           goodConfig [legacyWeek; laterLegacyWeek]).
  reflexivity.
Defined.

(** * The window loop before [schedule.go] *)

Lemma LegacyWindows_GetOlder_In (items : Legacy.Items) (when : Time)
    (it : Legacy.Item) :
  In it (LegacyWindows.GetOlder items when) ->
  In it items /\ instant (LegacyWindows.DoneAt it) <= instant when.
Proof.
  unfold LegacyWindows.GetOlder. rewrite filter_In.
  intros [Hin H]. split; [exact Hin|]. revert H. bool_lia.
  all: intros; try discriminate; lia.
Qed.

Lemma LegacyWindows_GetInRange_In (items : Legacy.Items) (start end_ : Time)
    (it : Legacy.Item) :
  In it (LegacyWindows.GetInRange items start end_) -> In it items.
Proof.
  unfold LegacyWindows.GetInRange.
  destruct (After start end_); intros H; now apply filter_In in H.
Qed.

Lemma LegacyWindows_splitLoop_pool (fuel : nat) :
  forall weeks items start end_ res,
    LegacyWindows.splitLoop fuel weeks items start end_ = Some res ->
    forall w, In w res ->
      In w weeks \/ forall it, In it (Legacy.wItems w) -> In it items.
Proof.
  induction fuel as [|fuel IH]; intros weeks items start end_ res Hrun w Hw.
  - destruct items; [|discriminate]. injection Hrun as <-. now left.
  - destruct items as [|i items]; [injection Hrun as <-; now left|].
    cbn [LegacyWindows.splitLoop] in Hrun.
    destruct (IH _ _ _ _ _ Hrun w Hw) as [Hin | Hsub].
    + apply in_app_or in Hin. destruct Hin as [Hin | [<- | []]]; [now left|].
      right. intros it Hit. simpl in Hit.
      now apply LegacyWindows_GetInRange_In in Hit.
    + right. intros it Hit. apply Hsub in Hit.
      now apply LegacyWindows_GetOlder_In in Hit.
Qed.

(** X22. In the revision of the window loop that came before
    [schedule.go], the first filter is made at the start of the newest
    window and not at its end: no window holds an item completed after
    the start of the newest window, so that what was completed during the
    newest week is not reported. *)
Theorem LegacyWindows_newest_week_lost (fuel : nat) (items : Legacy.Items)
    (now : Time) (weeks : list Legacy.WeeklyItems) (w : Legacy.WeeklyItems)
    (it : Legacy.Item) :
  LegacyWindows.splitByWeeks fuel items now = Some weeks ->
  In w weeks -> In it (Legacy.wItems w) ->
  instant (LegacyWindows.DoneAt it)
    <= instant (getPreviousSunday (getClosestSunday now)).
Proof.
  intros Hrun Hw Hit. unfold LegacyWindows.splitByWeeks in Hrun.
  destruct (LegacyWindows_splitLoop_pool _ _ _ _ _ _ Hrun w Hw) as [[] | Hsub].
  apply Hsub in Hit. now apply LegacyWindows_GetOlder_In in Hit.
Qed.

(** An issue closed on Wednesday 2022-08-03, in a run made on Wednesday
    2022-08-10: the run ends without any window. *)
Lemma LegacyWindows_newest_week_lost_witness :
  LegacyWindows.splitByWeeks 5 [legacyDoneIssue] wednesdayNoon = Some [] /\
  (forall w it, In w (@nil Legacy.WeeklyItems) -> In it (Legacy.wItems w) ->
     instant (LegacyWindows.DoneAt it)
       <= instant (getPreviousSunday (getClosestSunday wednesdayNoon))).
Proof.
  split; [vm_compute; reflexivity|].
  intros w it.
  apply (LegacyWindows_newest_week_lost 5 [legacyDoneIssue] wednesdayNoon [] w it).
  vm_compute. reflexivity.
Defined.

(** * Patterns without a wildcard, with the matcher of go-glob *)

Lemma splitStar_starFree (s : string) : starFree s = true -> splitStar s = [s].
Proof.
  induction s as [|c s IH]; simpl; [reflexivity|].
  destruct (Ascii.eqb c "*"%char); simpl; [discriminate|].
  intros H. now rewrite (IH H).
Qed.

Lemma goGlob_starFree (pattern subj : string) :
  starFree pattern = true -> goGlob pattern subj = String.eqb subj pattern.
Proof.
  intros H. unfold goGlob.
  destruct (String.eqb pattern "") eqn:E1; [reflexivity|].
  destruct (String.eqb pattern "*") eqn:E2.
  - apply String.eqb_eq in E2. subst pattern. discriminate.
  - now rewrite splitStar_starFree.
Qed.

(** X23. With the matcher of go-glob, a label pattern without ["*"]
    matches an item exactly when one of its labels, trimmed, is the
    pattern, trimmed: letter for letter, case included. *)
Theorem HasLabel_starFree (it : Item) (l : string) :
  starFree (TrimSpace l) = true ->
  (HasLabel it l = true <->
   exists label, In label (Labels it) /\ TrimSpace label = TrimSpace l).
Proof.
  intros H. unfold HasLabel. rewrite existsb_exists.
  split; intros (label & Hin & Hm); exists label; (split; [exact Hin|]).
  - unfold Glob, goGlobMatcher in Hm. rewrite goGlob_starFree in Hm by exact H.
    now apply String.eqb_eq in Hm.
  - unfold Glob, goGlobMatcher. rewrite goGlob_starFree by exact H.
    now apply String.eqb_eq.
Qed.

Lemma HasLabel_starFree_witness :
  HasLabel itemAug01 " deployment " = true <->
  exists label, In label (Labels itemAug01)
                /\ TrimSpace label = TrimSpace " deployment ".
Proof. apply (HasLabel_starFree itemAug01 " deployment "). reflexivity. Defined.

Lemma splitStar_prefix_pattern (p : string) :
  starFree p = true -> splitStar (p ++ "*") = [p; ""].
Proof.
  induction p as [|c p IH]; [reflexivity|].
  simpl. change ((String c p ++ "*")%string) with (String c (p ++ "*")%string).
  cbn [splitStar].
  destruct (Ascii.eqb c "*"%char); simpl; [discriminate|].
  intros H. now rewrite (IH H).
Qed.

Lemma dropStr_all (s : string) : dropStr (String.length s) s = "".
Proof. induction s as [|c s IH]; simpl; [reflexivity | exact IH]. Qed.

Lemma HasSuffixStr_empty (s : string) : HasSuffixStr s "" = true.
Proof.
  unfold HasSuffixStr. simpl. rewrite Nat.sub_0_r, dropStr_all. reflexivity.
Qed.

Lemma index_0_prefix (p s : string) :
  (exists idx, String.index 0 p s = Some idx /\ (idx =? 0)%nat = true) <->
  String.prefix p s = true.
Proof.
  destruct s as [|b s].
  - destruct p as [|a p]; simpl.
    + split; [reflexivity | intros _; now exists O].
    + split; [intros (idx & H & _); discriminate | discriminate].
  - cbn [String.index].
    destruct (String.prefix p (String b s)) eqn:E.
    + split; [reflexivity | intros _; now exists O].
    + split; [|discriminate]. intros (idx & H & Hz).
      destruct (String.index 0 p s); [|discriminate].
      injection H as <-. discriminate.
Qed.

(** X24. With the matcher of go-glob, a prefix without ["*"] matches an
    item exactly when its title, trimmed, starts with the prefix,
    trimmed. *)
Theorem HasPrefix_starFree (it : Item) (prefix : string) :
  starFree (TrimSpace prefix) = true ->
  HasPrefix it prefix = String.prefix (TrimSpace prefix) (TrimSpace (Title it)).
Proof.
  intros H. unfold HasPrefix, Glob, goGlobMatcher.
  set (p := TrimSpace prefix) in *. set (title := TrimSpace (Title it)).
  destruct p as [|c p]; [now destruct title|].
  assert (Hc : Ascii.eqb c "*"%char = false).
  { simpl in H. now destruct (Ascii.eqb c "*"%char). }
  pose proof (splitStar_prefix_pattern (String c p) H) as Hsplit.
  assert (E1 : String.eqb (String c p ++ "*") "" = false) by reflexivity.
  assert (E2 : String.eqb (String c p ++ "*") "*" = false).
  { change ((String c p ++ "*")%string) with (String c (p ++ "*")%string).
    simpl. rewrite Hc. reflexivity. }
  assert (Hlead : String.prefix "*" (String c p ++ "*") = false).
  { change ((String c p ++ "*")%string) with (String c (p ++ "*")%string).
    apply not_true_is_false. intros Hp.
    apply prefix_correct in Hp. simpl in Hp. injection Hp as Hp.
    subst c. discriminate. }
  revert Hsplit E1 E2 Hlead.
  generalize ((String c p ++ "*")%string). intros pat Hsplit E1 E2 Hlead.
  unfold goGlob. rewrite E1, E2. cbv zeta. rewrite Hsplit, Hlead.
  cbn [length Nat.eqb globParts negb andb].
  pose proof (index_0_prefix (String c p) title) as Hi.
  destruct (String.index 0 (String c p) title) as [idx|].
  - destruct (idx =? 0)%nat eqn:Ez; cbn [negb].
    + rewrite HasSuffixStr_empty, orb_true_r.
      symmetry. apply Hi. now exists idx.
    + symmetry. apply not_true_is_false. intros Hp.
      apply Hi in Hp. destruct Hp as (idx' & [= <-] & Hz). congruence.
  - symmetry. apply not_true_is_false. intros Hp.
    apply Hi in Hp. destruct Hp as (idx' & Hd & _). discriminate.
Qed.

Lemma HasPrefix_starFree_witness :
  HasPrefix itemAug03 "Update Something" =
  String.prefix (TrimSpace "Update Something") (TrimSpace (Title itemAug03)).
Proof. apply (HasPrefix_starFree itemAug03 "Update Something"). reflexivity. Defined.
